(** * SwiftCart storefront: the commerce state engine of [src/App.tsx]

    A shallow embedding of the React component's state and of the handlers
    that change it: the cart, the pricing values derived from it, the coupon
    registry, checkout and the order ledger.

    Conventions of the embedding.
    - A TypeScript [number] that holds money or a percentage is a rational
      ([Q]).  The source computes in IEEE doubles: the model follows its
      operations one by one and leaves their rounding out, so the two agree
      where no operation rounds ([exactAmounts] below).  Equality of amounts
      is [Qeq] ([==]); the statements that order amounts, or that compare
      the amounts of two carts, are made in that range.
    - Identifiers and quantities are integers ([Z]): product ids are the
      literals 1..5 or [Date.now()], quantities start at 1 and are changed by
      [+ 1] and by [Math.max(1, q + delta)] only.
    - Strings are [string]; [toUpperCase] and [toLowerCase] are the
      JavaScript methods on ASCII strings.  The statements use them through
      the equality of converted strings and through idempotence, or are made
      for ASCII strings ([asciiOnly]).
    - Each handler is a function on the component state; what a handler takes
      from the environment ([Math.random], [new Date()], [Date.now()], the
      conversion [Number] of a form field) is an argument.
    - [setTimeout] callbacks are events of their own. *)

From Stdlib Require Import List ZArith QArith String Ascii Bool Lia Lqa.
From Stdlib Require Import DecimalString.
Import ListNotations.

Open Scope Z_scope.
Open Scope Q_scope.
Open Scope string_scope.
Open Scope list_scope.

(** ** Strings *)

Definition upper_ascii (c : ascii) : ascii :=
  let n := nat_of_ascii c in
  if (97 <=? n)%nat && (n <=? 122)%nat then ascii_of_nat (n - 32) else c.

Fixpoint toUpperCase (s : string) : string :=
  match s with
  | EmptyString => EmptyString
  | String c rest => String (upper_ascii c) (toUpperCase rest)
  end.

(** ** Data model (interfaces [Product], [CartItem], [Order], [Coupon]) *)

Abbreviation number := Q (only parsing).

Record Product := mkProduct {
  p_id : Z;
  p_name : string;
  p_price : number;
  p_image : string;
  p_category : string
}.

(** [interface CartItem extends Product { quantity: number }] *)
Record CartItem := mkCartItem {
  id : Z;
  name : string;
  price : number;
  image : string;
  category : string;
  quantity : Z
}.

Inductive Status := Pending | Shipped | Delivered | Returned.

Record Order := mkOrder {
  o_id : string;
  o_date : string;
  o_items : list CartItem;
  o_total : number;
  o_status : Status
}.

Record Coupon := mkCoupon {
  code : string;
  discount : number;
  isActive : bool
}.

(** [{ ...product, quantity: q }] *)
Definition withProduct (product : Product) (q : Z) : CartItem :=
  mkCartItem (p_id product) (p_name product) (p_price product)
             (p_image product) (p_category product) q.

(** [{ ...item, quantity: q }] *)
Definition withQuantity (item : CartItem) (q : Z) : CartItem :=
  mkCartItem (id item) (name item) (price item) (image item) (category item) q.

(** [{ ...order, status: st }] *)
Definition withStatus (order : Order) (st : Status) : Order :=
  mkOrder (o_id order) (o_date order) (o_items order) (o_total order) st.

(** [{ ...c, isActive: b }] *)
Definition withActive (c : Coupon) (b : bool) : Coupon :=
  mkCoupon (code c) (discount c) b.

Definition INITIAL_PRODUCTS : list Product :=
  [ mkProduct 1 "Premium Wireless Headphones" 12999
      "https://picsum.photos/seed/headphones/400/400" "Electronics";
    mkProduct 2 "Minimalist Leather Watch" 4500
      "https://picsum.photos/seed/watch/400/400" "Accessories";
    mkProduct 3 "Smart Fitness Tracker" 2999
      "https://picsum.photos/seed/tracker/400/400" "Electronics";
    mkProduct 4 "Ergonomic Coffee Mug" 899
      "https://picsum.photos/seed/mug/400/400" "Home";
    mkProduct 5 "Organic Cotton T-Shirt" 1200
      "https://picsum.photos/seed/tshirt/400/400" "Apparel" ].

(** ** Derived values (pricing) *)

(** [cart.reduce((sum, item) => sum + item.quantity, 0)] *)
Definition cartCount (cart : list CartItem) : Z :=
  fold_left (fun sum item => (sum + quantity item)%Z) cart 0%Z.

(** [cart.reduce((sum, item) => sum + (item.price * item.quantity), 0)] *)
Definition subtotal (cart : list CartItem) : number :=
  fold_left (fun sum item => sum + price item * inject_Z (quantity item)) cart 0.

(** [if (!appliedCoupon) return 0;
     return (subtotal * appliedCoupon.discount) / 100;] *)
Definition discountAmount (sub : number) (appliedCoupon : option Coupon) : number :=
  match appliedCoupon with
  | None => 0
  | Some c => (sub * discount c) / 100
  end.

(** [const cartTotal = subtotal - discountAmount;] *)
Definition cartTotal (cart : list CartItem) (appliedCoupon : option Coupon) : number :=
  subtotal cart - discountAmount (subtotal cart) appliedCoupon.

(** The sum of the spec's pricing rule, [Σ (line price * line quantity)],
    written by recursion on the lines; [subtotal] is compared with it. *)
Fixpoint sum_of_lines (cart : list CartItem) : number :=
  match cart with
  | [] => 0
  | item :: rest => price item * inject_Z (quantity item) + sum_of_lines rest
  end.

(** ** Cart updaters

    The functions that [addToCart], [removeFromCart] and [updateQuantity]
    pass to [setCart]; each maps the previous cart to the next one. *)

Module CartUpdate.

Definition addToCart (product : Product) (prevCart : list CartItem) : list CartItem :=
  match find (fun item => (id item =? p_id product)%Z) prevCart with
  | Some _ =>
      map (fun item =>
             if (id item =? p_id product)%Z
             then withQuantity item (quantity item + 1)
             else item) prevCart
  | None => prevCart ++ [withProduct product 1]
  end.

Definition removeFromCart (productId : Z) (prevCart : list CartItem) : list CartItem :=
  filter (fun item => negb (id item =? productId)%Z) prevCart.

Definition updateQuantity (productId delta : Z) (prevCart : list CartItem) : list CartItem :=
  map (fun item =>
         if (id item =? productId)%Z
         then withQuantity item (Z.max 1 (quantity item + delta))
         else item) prevCart.

End CartUpdate.

(** ** Component state *)

Record NewProductForm := mkNewProductForm {
  np_name : string;
  np_price : string;
  np_category : string;
  np_image : string
}.

Record NewCouponForm := mkNewCouponForm {
  nc_code : string;
  nc_discount : string
}.

(** The [useState] cells of [App] that the modelled handlers read or write.
    The view selector, the search box and the admin login form are left
    out: no modelled handler touches them. *)
Record State := mkState {
  products : list Product;
  cart : list CartItem;
  wishlist : list Z;
  orders : list Order;
  coupons : list Coupon;
  appliedCoupon : option Coupon;
  couponInput : string;
  couponError : string;
  isCartOpen : bool;
  showCheckoutSuccess : bool;
  isCartBouncing : bool;
  revenue : number;
  totalOrders : Z;
  newProduct : NewProductForm;
  newCoupon : NewCouponForm
}.

(** The setters returned by [useState]. *)
Definition setProducts (v : list Product) (s : State) : State :=
  mkState v (cart s) (wishlist s) (orders s) (coupons s) (appliedCoupon s)
    (couponInput s) (couponError s) (isCartOpen s) (showCheckoutSuccess s)
    (isCartBouncing s) (revenue s) (totalOrders s) (newProduct s)
    (newCoupon s).

Definition setCart (v : list CartItem) (s : State) : State :=
  mkState (products s) v (wishlist s) (orders s) (coupons s) (appliedCoupon s)
    (couponInput s) (couponError s) (isCartOpen s) (showCheckoutSuccess s)
    (isCartBouncing s) (revenue s) (totalOrders s) (newProduct s)
    (newCoupon s).

Definition setWishlist (v : list Z) (s : State) : State :=
  mkState (products s) (cart s) v (orders s) (coupons s) (appliedCoupon s)
    (couponInput s) (couponError s) (isCartOpen s) (showCheckoutSuccess s)
    (isCartBouncing s) (revenue s) (totalOrders s) (newProduct s)
    (newCoupon s).

Definition setOrders (v : list Order) (s : State) : State :=
  mkState (products s) (cart s) (wishlist s) v (coupons s) (appliedCoupon s)
    (couponInput s) (couponError s) (isCartOpen s) (showCheckoutSuccess s)
    (isCartBouncing s) (revenue s) (totalOrders s) (newProduct s)
    (newCoupon s).

Definition setCoupons (v : list Coupon) (s : State) : State :=
  mkState (products s) (cart s) (wishlist s) (orders s) v (appliedCoupon s)
    (couponInput s) (couponError s) (isCartOpen s) (showCheckoutSuccess s)
    (isCartBouncing s) (revenue s) (totalOrders s) (newProduct s)
    (newCoupon s).

Definition setAppliedCoupon (v : option Coupon) (s : State) : State :=
  mkState (products s) (cart s) (wishlist s) (orders s) (coupons s) v
    (couponInput s) (couponError s) (isCartOpen s) (showCheckoutSuccess s)
    (isCartBouncing s) (revenue s) (totalOrders s) (newProduct s)
    (newCoupon s).

Definition setCouponInput (v : string) (s : State) : State :=
  mkState (products s) (cart s) (wishlist s) (orders s) (coupons s)
    (appliedCoupon s) v (couponError s) (isCartOpen s) (showCheckoutSuccess s)
    (isCartBouncing s) (revenue s) (totalOrders s) (newProduct s)
    (newCoupon s).

Definition setCouponError (v : string) (s : State) : State :=
  mkState (products s) (cart s) (wishlist s) (orders s) (coupons s)
    (appliedCoupon s) (couponInput s) v (isCartOpen s) (showCheckoutSuccess s)
    (isCartBouncing s) (revenue s) (totalOrders s) (newProduct s)
    (newCoupon s).

Definition setIsCartOpen (v : bool) (s : State) : State :=
  mkState (products s) (cart s) (wishlist s) (orders s) (coupons s)
    (appliedCoupon s) (couponInput s) (couponError s) v
    (showCheckoutSuccess s) (isCartBouncing s) (revenue s) (totalOrders s)
    (newProduct s) (newCoupon s).

Definition setShowCheckoutSuccess (v : bool) (s : State) : State :=
  mkState (products s) (cart s) (wishlist s) (orders s) (coupons s)
    (appliedCoupon s) (couponInput s) (couponError s) (isCartOpen s) v
    (isCartBouncing s) (revenue s) (totalOrders s) (newProduct s)
    (newCoupon s).

Definition setIsCartBouncing (v : bool) (s : State) : State :=
  mkState (products s) (cart s) (wishlist s) (orders s) (coupons s)
    (appliedCoupon s) (couponInput s) (couponError s) (isCartOpen s)
    (showCheckoutSuccess s) v (revenue s) (totalOrders s) (newProduct s)
    (newCoupon s).

Definition setRevenue (v : number) (s : State) : State :=
  mkState (products s) (cart s) (wishlist s) (orders s) (coupons s)
    (appliedCoupon s) (couponInput s) (couponError s) (isCartOpen s)
    (showCheckoutSuccess s) (isCartBouncing s) v (totalOrders s)
    (newProduct s) (newCoupon s).

Definition setTotalOrders (v : Z) (s : State) : State :=
  mkState (products s) (cart s) (wishlist s) (orders s) (coupons s)
    (appliedCoupon s) (couponInput s) (couponError s) (isCartOpen s)
    (showCheckoutSuccess s) (isCartBouncing s) (revenue s) v (newProduct s)
    (newCoupon s).

Definition setNewProduct (v : NewProductForm) (s : State) : State :=
  mkState (products s) (cart s) (wishlist s) (orders s) (coupons s)
    (appliedCoupon s) (couponInput s) (couponError s) (isCartOpen s)
    (showCheckoutSuccess s) (isCartBouncing s) (revenue s) (totalOrders s) v
    (newCoupon s).

Definition setNewCoupon (v : NewCouponForm) (s : State) : State :=
  mkState (products s) (cart s) (wishlist s) (orders s) (coupons s)
    (appliedCoupon s) (couponInput s) (couponError s) (isCartOpen s)
    (showCheckoutSuccess s) (isCartBouncing s) (revenue s) (totalOrders s)
    (newProduct s) v.

(** ** Handlers *)

(** JavaScript truthiness of a string: [!s] holds for the empty string only. *)
Definition falsy (s : string) : bool :=
  match s with
  | EmptyString => true
  | String _ _ => false
  end.

(** [`${n}`] for an integer [n]. *)
Definition string_of_Z (n : Z) : string := NilZero.string_of_int (Z.to_int n).

Definition initialState : State :=
  mkState INITIAL_PRODUCTS [] [] []
          [mkCoupon "WELCOME10" 10 true] None "" ""
          false false false 0 0%Z
          (mkNewProductForm "" "" "Electronics" "")
          (mkNewCouponForm "" "").

Definition addToCart (product : Product) (s : State) : State :=
  setCart (CartUpdate.addToCart product (cart s)) (setIsCartBouncing true s).

(** The callback of [setTimeout(() => setIsCartBouncing(false), 300)]. *)
Definition bounceTimeout (s : State) : State := setIsCartBouncing false s.

Definition removeFromCart (productId : Z) (s : State) : State :=
  setCart (CartUpdate.removeFromCart productId (cart s)) s.

Definition updateQuantity (productId delta : Z) (s : State) : State :=
  setCart (CartUpdate.updateQuantity productId delta (cart s)) s.

(** [checkout]; [orderId] stands for the [ORD-...] string drawn from
    [Math.random()] and [date] for [new Date().toLocaleString()]. *)
Definition checkout (orderId date : string) (s : State) : State :=
  match cart s with
  | [] => s
  | _ :: _ =>
      let orderTotal := cartTotal (cart s) (appliedCoupon s) in
      let newOrder := mkOrder orderId date (cart s) orderTotal Pending in
      setCart []
        (setShowCheckoutSuccess true
           (setTotalOrders (totalOrders s + 1)%Z
              (setRevenue (revenue s + orderTotal)
                 (setOrders (newOrder :: orders s) s))))
  end.

(** The callback that [checkout] schedules after 3000 ms. *)
Definition checkoutTimeout (s : State) : State :=
  setIsCartOpen false (setShowCheckoutSuccess false s).

Definition updateOrderStatus (orderId : string) (newStatus : Status) (s : State) : State :=
  setOrders
    (map (fun order =>
            if String.eqb (o_id order) orderId then withStatus order newStatus else order)
         (orders s)) s.

(** The "Return" button of the my-orders view.  It is rendered for the
    [i]-th order of the ledger only when [order.status === 'Delivered'], and
    calls [updateOrderStatus(order.id, 'Returned')]; where the button is not
    rendered nothing can be clicked. *)
Definition customerReturn (i : nat) (s : State) : State :=
  match nth_error (orders s) i with
  | Some order =>
      match o_status order with
      | Delivered => updateOrderStatus (o_id order) Returned s
      | _ => s
      end
  | None => s
  end.

(** The status [<select>] of the admin table, on the row of the [i]-th
    order: [updateOrderStatus(order.id, e.target.value)], any of the four
    options. *)
Definition adminSelectStatus (i : nat) (newStatus : Status) (s : State) : State :=
  match nth_error (orders s) i with
  | Some order => updateOrderStatus (o_id order) newStatus s
  | None => s
  end.

Definition deleteProduct (productId : Z) (s : State) : State :=
  setProducts (filter (fun p => negb (p_id p =? productId)%Z) (products s)) s.

Definition handleApplyCoupon (s : State) : State :=
  match find (fun c => String.eqb (toUpperCase (code c)) (toUpperCase (couponInput s))
                       && isActive c) (coupons s) with
  | Some coupon => setCouponInput "" (setCouponError "" (setAppliedCoupon (Some coupon) s))
  | None => setCouponError "Invalid or inactive coupon code" s
  end.

(** The "remove coupon" button: [setAppliedCoupon(null)]. *)
Definition removeAppliedCoupon (s : State) : State := setAppliedCoupon None s.

Definition toggleCouponStatus (code0 : string) (s : State) : State :=
  setCoupons
    (map (fun c => if String.eqb (code c) code0 then withActive c (negb (isActive c)) else c)
         (coupons s)) s.

Definition deleteCoupon (code0 : string) (s : State) : State :=
  setCoupons (filter (fun c => negb (String.eqb (code c) code0)) (coupons s)) s.

Definition toggleWishlist (productId : Z) (s : State) : State :=
  setWishlist
    (if existsb (Z.eqb productId) (wishlist s)
     then filter (fun i => negb (i =? productId)%Z) (wishlist s)
     else wishlist s ++ [productId]) s.

Section Forms.

(** The JavaScript conversion [Number(...)] of a form field. *)
Variable Number : string -> number.

(** [handleAddProduct]; [now1] and [now2] are its two readings of
    [Date.now()]. *)
Definition handleAddProduct (now1 now2 : Z) (s : State) : State :=
  let form := newProduct s in
  if falsy (np_name form) || falsy (np_price form) then s
  else
    let product :=
      mkProduct now1 (np_name form) (Number (np_price form))
        (if falsy (np_image form)
         then "https://picsum.photos/seed/" ++ string_of_Z now2 ++ "/400/400"
         else np_image form)
        (np_category form) in
    setNewProduct (mkNewProductForm "" "" "Electronics" "")
      (setProducts (product :: products s) s).

Definition handleAddCoupon (s : State) : State :=
  let form := newCoupon s in
  if falsy (nc_code form) || falsy (nc_discount form) then s
  else
    let coupon := mkCoupon (toUpperCase (nc_code form)) (Number (nc_discount form)) true in
    setNewCoupon (mkNewCouponForm "" "") (setCoupons (coupons s ++ [coupon]) s).

(** ** Events of a session *)

Inductive Action :=
| AddToCart (product : Product)
| BounceTimeout
| RemoveFromCart (productId : Z)
| UpdateQuantity (productId delta : Z)
| Checkout (orderId date : string)
| CheckoutTimeout
| CustomerReturn (i : nat)
| AdminSelectStatus (i : nat) (newStatus : Status)
| SetNewProduct (form : NewProductForm)
| HandleAddProduct (now1 now2 : Z)
| DeleteProduct (productId : Z)
| SetCouponInput (input : string)
| HandleApplyCoupon
| RemoveAppliedCoupon
| SetNewCoupon (form : NewCouponForm)
| HandleAddCoupon
| ToggleCouponStatus (code0 : string)
| DeleteCoupon (code0 : string)
| ToggleWishlist (productId : Z)
| SetIsCartOpen (open : bool).

Definition step (a : Action) (s : State) : State :=
  match a with
  | AddToCart product => addToCart product s
  | BounceTimeout => bounceTimeout s
  | RemoveFromCart productId => removeFromCart productId s
  | UpdateQuantity productId delta => updateQuantity productId delta s
  | Checkout orderId date => checkout orderId date s
  | CheckoutTimeout => checkoutTimeout s
  | CustomerReturn i => customerReturn i s
  | AdminSelectStatus i newStatus => adminSelectStatus i newStatus s
  | SetNewProduct form => setNewProduct form s
  | HandleAddProduct now1 now2 => handleAddProduct now1 now2 s
  | DeleteProduct productId => deleteProduct productId s
  | SetCouponInput input => setCouponInput input s
  | HandleApplyCoupon => handleApplyCoupon s
  | RemoveAppliedCoupon => removeAppliedCoupon s
  | SetNewCoupon form => setNewCoupon form s
  | HandleAddCoupon => handleAddCoupon s
  | ToggleCouponStatus code0 => toggleCouponStatus code0 s
  | DeleteCoupon code0 => deleteCoupon code0 s
  | ToggleWishlist productId => toggleWishlist productId s
  | SetIsCartOpen open => setIsCartOpen open s
  end.

(** The state after the events of [l], oldest first. *)
Definition run (l : list Action) (s : State) : State :=
  fold_left (fun st a => step a st) l s.

End Forms.

(** ** Sample sessions *)

(** [Number] on a string of decimal digits (and on the empty string, which
    JavaScript converts to 0).  The sample sessions type digits only; on any
    other string this function is not the JavaScript conversion. *)
Definition decimalNumber (s : string) : number :=
  match NilEmpty.uint_of_string s with
  | Some u => inject_Z (Z.of_uint u)
  | None => 0
  end.

Definition headphones : Product :=
  mkProduct 1 "Premium Wireless Headphones" 12999
    "https://picsum.photos/seed/headphones/400/400" "Electronics".

Definition watch : Product :=
  mkProduct 2 "Minimalist Leather Watch" 4500
    "https://picsum.photos/seed/watch/400/400" "Accessories".

Definition mug : Product :=
  mkProduct 4 "Ergonomic Coffee Mug" 899
    "https://picsum.photos/seed/mug/400/400" "Home".

(** One pair of headphones and two watches in the cart, the coupon of the
    initial registry typed in lower case and applied. *)
Definition welcomeSession : State :=
  run decimalNumber
    [AddToCart headphones; AddToCart watch; AddToCart watch;
     SetCouponInput "welcome10"; HandleApplyCoupon]
    initialState.


(** The admin registers the code [save] twice, in two spellings. *)
Definition duplicateCouponSession : State :=
  run decimalNumber
    [SetNewCoupon (mkNewCouponForm "save" "20"); HandleAddCoupon;
     SetNewCoupon (mkNewCouponForm "Save" "30"); HandleAddCoupon]
    initialState.

(** One order has been placed and is still pending. *)
Definition pendingOrderSession : State :=
  run decimalNumber [AddToCart mug; Checkout "ORD-A1B2C3D4E" "1/1/2025, 10:00:00 AM"]
    initialState.

(** The order of [pendingOrderSession] after the admin marked it delivered. *)
Definition deliveredOrderSession : State :=
  run decimalNumber [AdminSelectStatus 0 Delivered] pendingOrderSession.

(** ** Vocabulary of the properties *)

(** The events of the coupon box and of the admin's coupon panel. *)
Definition isCouponAction (a : Action) : bool :=
  match a with
  | SetCouponInput _ | HandleApplyCoupon | RemoveAppliedCoupon
  | SetNewCoupon _ | HandleAddCoupon | ToggleCouponStatus _ | DeleteCoupon _ => true
  | _ => false
  end.

(** A registered coupon that [inputCode] selects: same code up to case, and
    active. *)
Definition validFor (inputCode : string) (registry : list Coupon) (c : Coupon) : Prop :=
  In c registry /\ toUpperCase (code c) = toUpperCase inputCode /\ isActive c = true.

Fixpoint sum_of_amounts (amounts : list number) : number :=
  match amounts with
  | [] => 0
  | amount :: rest => amount + sum_of_amounts rest
  end.

(** The counters agree with the ledger. *)
Definition countersMatchLedger (s : State) : Prop :=
  revenue s == sum_of_amounts (map o_total (orders s)) /\
  totalOrders s = Z.of_nat (List.length (orders s)).

(** Every code of the registry is in upper case. *)
Definition canonicalCodes (registry : list Coupon) : Prop :=
  Forall (fun c => toUpperCase (code c) = code c) registry.

(** ** Further derived values and handlers *)

Definition lower_ascii (c : ascii) : ascii :=
  let n := nat_of_ascii c in
  if (65 <=? n)%nat && (n <=? 90)%nat then ascii_of_nat (n + 32) else c.

Fixpoint toLowerCase (s : string) : string :=
  match s with
  | EmptyString => EmptyString
  | String c rest => String (lower_ascii c) (toLowerCase rest)
  end.

(** [s.startsWith(sub)] *)
Fixpoint startsWith (s sub : string) {struct sub} : bool :=
  match sub, s with
  | EmptyString, _ => true
  | String _ _, EmptyString => false
  | String c sub', String d s' => Ascii.eqb c d && startsWith s' sub'
  end.

(** [s.includes(sub)]: [sub] occurs in [s] at some position. *)
Fixpoint includes (s sub : string) : bool :=
  startsWith s sub ||
  match s with
  | EmptyString => false
  | String _ rest => includes rest sub
  end.

(** [products.filter(product =>
      product.name.toLowerCase().includes(searchQuery.toLowerCase()))] *)
Definition filteredProducts (products : list Product) (searchQuery : string)
  : list Product :=
  filter (fun product => includes (toLowerCase (p_name product)) (toLowerCase searchQuery))
         products.

(** The wishlist view: [products.filter(p => wishlist.includes(p.id))]. *)
Definition wishlistProducts (products : list Product) (wishlist : list Z)
  : list Product :=
  filter (fun p => existsb (Z.eqb (p_id p)) wishlist) products.

(** The admin login: the cells [isAdminAuthenticated], [loginForm] and
    [loginError], with [handleAdminLogin] and [handleAdminLogout]. *)
Record LoginForm := mkLoginForm {
  lf_id : string;
  lf_password : string
}.

Record AdminAuth := mkAdminAuth {
  isAdminAuthenticated : bool;
  loginForm : LoginForm;
  loginError : string
}.

Definition handleAdminLogin (st : AdminAuth) : AdminAuth :=
  if String.eqb (lf_id (loginForm st)) "Sanket123"
     && String.eqb (lf_password (loginForm st)) "Sanket@959595"
  then mkAdminAuth true (mkLoginForm "" "") ""
  else mkAdminAuth (isAdminAuthenticated st) (loginForm st)
         "Invalid Admin ID or Password".

Definition handleAdminLogout (st : AdminAuth) : AdminAuth :=
  mkAdminAuth false (loginForm st) (loginError st).

Inductive AuthAction :=
| SetLoginForm (form : LoginForm)
| HandleAdminLogin
| HandleAdminLogout.

Definition authStep (a : AuthAction) (st : AdminAuth) : AdminAuth :=
  match a with
  | SetLoginForm form => mkAdminAuth (isAdminAuthenticated st) form (loginError st)
  | HandleAdminLogin => handleAdminLogin st
  | HandleAdminLogout => handleAdminLogout st
  end.

Definition authRun (l : list AuthAction) (st : AdminAuth) : AdminAuth :=
  fold_left (fun acc a => authStep a acc) l st.

Definition initialAuth : AdminAuth := mkAdminAuth false (mkLoginForm "" "") "".

(** ** Further vocabulary *)

(** The lines of a cart have pairwise distinct ids and quantities of at
    least 1. *)
Definition cartWellFormed (cart : list CartItem) : Prop :=
  NoDup (map id cart) /\ Forall (fun item => (1 <= quantity item)%Z) cart.

Fixpoint sum_of_quantities (cart : list CartItem) : Z :=
  match cart with
  | [] => 0%Z
  | item :: rest => (quantity item + sum_of_quantities rest)%Z
  end.

(** The unit price at which [addToCart] counts one more [product]: the price
    of the line the cart holds for it, or the product's own. *)
Definition unitPriceIn (product : Product) (cart : list CartItem) : number :=
  match find (fun item => (id item =? p_id product)%Z) cart with
  | Some line => price line
  | None => p_price product
  end.

(** The events of the admin's product panel. *)
Definition isCatalogAction (a : Action) : bool :=
  match a with
  | SetNewProduct _ | HandleAddProduct _ _ | DeleteProduct _ => true
  | _ => false
  end.

(** The events of the admin's coupon panel. *)
Definition isRegistryAction (a : Action) : bool :=
  match a with
  | SetNewCoupon _ | HandleAddCoupon | ToggleCouponStatus _ | DeleteCoupon _ => true
  | _ => false
  end.

(** What an order keeps for good: everything but its status. *)
Definition frozenPart (order : Order) : string * string * list CartItem * number :=
  (o_id order, o_date order, o_items order, o_total order).

(** An applied coupon is a copy of a coupon that was active and whose code
    is in upper case. *)
Definition appliedOk (applied : option Coupon) : Prop :=
  match applied with
  | None => True
  | Some c => isActive c = true /\ toUpperCase (code c) = code c
  end.

(** An order holds at least one line, its lines are well formed, and its
    total is the pricing of its own lines under no coupon or an active one. *)
Definition orderWellFormed (order : Order) : Prop :=
  o_items order <> [] /\
  cartWellFormed (o_items order) /\
  exists applied, appliedOk applied /\
    o_total order = cartTotal (o_items order) applied.

Definition sessionInvariant (s : State) : Prop :=
  cartWellFormed (cart s) /\
  NoDup (wishlist s) /\
  canonicalCodes (coupons s) /\
  appliedOk (appliedCoupon s) /\
  Forall orderWellFormed (orders s).

Definition tracker : Product :=
  mkProduct 3 "Smart Fitness Tracker" 2999
    "https://picsum.photos/seed/tracker/400/400" "Electronics".

(** ** Where the doubles of the source are exact

    The source computes amounts in IEEE doubles.  Sums and products of
    non-negative integers are computed without rounding as long as they stay
    at or below 2^53, and there the rationals of this model are the values of
    the code.  Statements that order amounts or add and subtract them are made
    under these conditions. *)

Definition two53 : number := 9007199254740992.

(** A line whose price is a non-negative integer and whose quantity is not
    negative. *)
Definition exactLine (item : CartItem) : Prop :=
  (exists p : Z, (0 <= p)%Z /\ price item == inject_Z p) /\
  (0 <= quantity item)%Z.

(** Such lines, with a subtotal of at most 2^53. *)
Definition exactAmounts (cart : list CartItem) : Prop :=
  Forall exactLine cart /\ sum_of_lines cart <= two53.

(** The characters of [s] are ASCII (codes below 128), where the case
    conversions of this model are those of JavaScript. *)
Fixpoint asciiOnly (s : string) : bool :=
  match s with
  | EmptyString => true
  | String c rest => (nat_of_ascii c <? 128)%nat && asciiOnly rest
  end.

(** * Properties *)

(** ** Pricing *)

Lemma subtotal_from (cart : list CartItem) (acc : number) :
  fold_left (fun sum item => sum + price item * inject_Z (quantity item)) cart acc
  == acc + sum_of_lines cart.
Proof.
  revert acc.
  induction cart as [|item rest IH]; intros acc; simpl.
  - ring.
  - rewrite IH. ring.
Qed.

Lemma subtotal_sum_of_lines (cart : list CartItem) :
  subtotal cart == sum_of_lines cart.
Proof.
  unfold subtotal. rewrite subtotal_from. ring.
Qed.






(** ** The cart *)

Section CartLemmas.

Variable hit : CartItem -> bool.
Variable change : CartItem -> CartItem.

Lemma find_existsb (cart : list CartItem) :
  find hit cart = None <-> existsb hit cart = false.
Proof.
  induction cart as [|item rest IH]; simpl.
  - tauto.
  - destruct (hit item); simpl; [split; discriminate | exact IH].
Qed.

Lemma map_miss (cart : list CartItem) :
  existsb hit cart = false ->
  map (fun item => if hit item then change item else item) cart = cart.
Proof.
  induction cart as [|item rest IH]; simpl; intros Hmiss.
  - reflexivity.
  - apply orb_false_iff in Hmiss. destruct Hmiss as [Hitem Hrest].
    rewrite Hitem, (IH Hrest). reflexivity.
Qed.

Lemma map_ids (cart : list CartItem) :
  (forall item, id (change item) = id item) ->
  map id (map (fun item => if hit item then change item else item) cart) = map id cart.
Proof.
  intros Hid. rewrite map_map. apply map_ext.
  intros item. destruct (hit item); [apply Hid | reflexivity].
Qed.

End CartLemmas.

Lemma existsb_id_In (productId : Z) (cart : list CartItem) :
  existsb (fun item => (id item =? productId)%Z) cart = false ->
  ~ In productId (map id cart).
Proof.
  intros Hmiss Hin. apply in_map_iff in Hin. destruct Hin as [item [Hid Hin]].
  assert (Hex : existsb (fun item => (id item =? productId)%Z) cart = true).
  { apply existsb_exists. exists item. split; [exact Hin | apply Z.eqb_eq; exact Hid]. }
  congruence.
Qed.

(** C4.  [addToCart] on any cart: when a line for [product.id] exists the
    cart keeps its length and, line by line, a line of that id has its
    quantity increased by 1 and any other line is unchanged; when none exists
    the cart is extended at its end by a line of quantity 1.  Adding a
    product that the cart did not hold twice ends with one line of quantity
    2 for it, and a cart whose ids are pairwise distinct stays so. *)
Theorem addToCart_spec (product : Product) (cart : list CartItem) :
  let present := existsb (fun item => (id item =? p_id product)%Z) cart in
  let added := CartUpdate.addToCart product cart in
  (present = true ->
   List.length added = List.length cart /\
   forall i item, nth_error cart i = Some item ->
     nth_error added i =
       Some (if (id item =? p_id product)%Z
             then withQuantity item (quantity item + 1) else item)) /\
  (present = false -> added = cart ++ [withProduct product 1]) /\
  (present = false ->
   CartUpdate.addToCart product added = cart ++ [withProduct product 2] /\
   List.length (filter (fun item => (id item =? p_id product)%Z)
             (CartUpdate.addToCart product added)) = 1%nat) /\
  (NoDup (map id cart) -> NoDup (map id added)).
Proof.
  intros present added. subst present added.
  unfold CartUpdate.addToCart.
  destruct (find (fun item => (id item =? p_id product)%Z) cart) as [found|] eqn:Hfind.
  - assert (Hpresent : existsb (fun item => (id item =? p_id product)%Z) cart = true).
    { destruct (existsb _ cart) eqn:Hex; [reflexivity|].
      apply find_existsb in Hex. congruence. }
    rewrite Hpresent.
    split; [intros _ | split; [discriminate | split; [discriminate|]]].
    + split; [apply length_map|].
      intros i item Hi. rewrite nth_error_map, Hi. reflexivity.
    + intros Hnodup.
      rewrite (map_ids _ (fun item => withQuantity item (quantity item + 1)));
        [exact Hnodup | reflexivity].
  - apply find_existsb in Hfind. rewrite Hfind.
    split; [discriminate | split; [reflexivity | split]].
    + intros _.
      assert (Htwice :
        match find (fun item => (id item =? p_id product)%Z)
                (cart ++ [withProduct product 1]) with
        | Some _ =>
            map (fun item =>
                   if (id item =? p_id product)%Z
                   then withQuantity item (quantity item + 1) else item)
              (cart ++ [withProduct product 1])
        | None => (cart ++ [withProduct product 1]) ++ [withProduct product 1]
        end = cart ++ [withProduct product 2]).
      { destruct (find _ (cart ++ [withProduct product 1])) eqn:Hfind2.
        - rewrite map_app, (map_miss _ _ _ Hfind). simpl.
          rewrite Z.eqb_refl. reflexivity.
        - apply find_existsb in Hfind2. rewrite existsb_app in Hfind2.
          simpl in Hfind2. rewrite Z.eqb_refl, orb_true_r in Hfind2. discriminate. }
      rewrite Htwice. split; [reflexivity|].
      rewrite filter_app. simpl. rewrite Z.eqb_refl. rewrite length_app. simpl.
      assert (Hnone : filter (fun item => (id item =? p_id product)%Z) cart = []).
      { clear Htwice. induction cart as [|item rest IH]; simpl in *; [reflexivity|].
        apply orb_false_iff in Hfind. destruct Hfind as [Hitem Hrest].
        rewrite Hitem. apply IH. exact Hrest. }
      rewrite Hnone. reflexivity.
    + intros Hnodup. rewrite map_app. simpl.
      apply NoDup_app; [exact Hnodup | | ].
      * constructor; [intros [] | constructor].
      * intros x Hx [Hx1 | []]. subst x.
        exact (existsb_id_In _ _ Hfind Hx).
Qed.

Lemma addToCart_spec_witness :
  CartUpdate.addToCart watch (CartUpdate.addToCart watch [withProduct headphones 1])
  = [withProduct headphones 1; withProduct watch 2].
Proof.
  pose proof (addToCart_spec watch [withProduct headphones 1]) as H.
  cbv zeta in H. destruct H as (_ & _ & H & _).
  apply H. reflexivity.
Defined.

(** C5.  [updateQuantity] on any cart, id and integer delta: the cart keeps
    its length; line by line, a line of that id gets the quantity
    max(1, quantity + delta) and any other line is unchanged; when no line
    has the id the cart is returned as it is; the quantity of a changed
    line is at least 1; a line of quantity 3 updated by -100 has quantity
    1. *)
Theorem updateQuantity_spec (productId delta : Z) (cart : list CartItem) :
  let updated := CartUpdate.updateQuantity productId delta cart in
  List.length updated = List.length cart /\
  (forall i item, nth_error cart i = Some item ->
     nth_error updated i =
       Some (if (id item =? productId)%Z
             then withQuantity item (Z.max 1 (quantity item + delta)) else item)) /\
  (existsb (fun item => (id item =? productId)%Z) cart = false -> updated = cart) /\
  (forall item, In item updated -> id item = productId -> (1 <= quantity item)%Z) /\
  (forall item, quantity item = 3%Z ->
     CartUpdate.updateQuantity (id item) (-100) [item] = [withQuantity item 1]).
Proof.
  intros updated. subst updated. unfold CartUpdate.updateQuantity.
  split; [apply length_map|].
  split; [intros i item Hi; rewrite nth_error_map, Hi; reflexivity|].
  split; [apply map_miss|].
  split.
  - intros item Hin Hid. apply in_map_iff in Hin.
    destruct Hin as [item0 [Hitem Hin]].
    destruct (id item0 =? productId)%Z eqn:Hhit.
    + subst item. simpl. lia.
    + subst item. apply Z.eqb_neq in Hhit. contradiction.
  - intros item Hq. simpl. rewrite Z.eqb_refl, Hq. reflexivity.
Qed.

Lemma updateQuantity_spec_witness :
  CartUpdate.updateQuantity 2 (-100) [withProduct watch 3] = [withProduct watch 1].
Proof.
  pose proof (updateQuantity_spec 2 (-100) [withProduct watch 3]) as H.
  cbv zeta in H. destruct H as (_ & _ & _ & _ & H).
  apply (H (withProduct watch 3)). reflexivity.
Defined.

(** ** Checkout *)

Lemma checkout_nil (orderId date : string) (s : State) :
  cart s = [] -> checkout orderId date s = s.
Proof.
  intros Hempty. unfold checkout. rewrite Hempty. reflexivity.
Qed.

(** C3.  [checkout] with an empty cart returns the state it was given: the
    ledger, the counters and every other cell are unchanged. *)
Theorem checkout_empty_cart (orderId date : string) (s : State) :
  cart s = [] -> checkout orderId date s = s.
Proof.
  intros Hempty. apply checkout_nil. exact Hempty.
Qed.

Lemma checkout_empty_cart_witness :
  checkout "ORD-Z9Y8X7W6V" "1/1/2025, 10:00:00 AM" initialState = initialState.
Proof.
  apply (checkout_empty_cart "ORD-Z9Y8X7W6V" "1/1/2025, 10:00:00 AM" initialState).
  reflexivity.
Defined.

(** ** Coupon validation *)

(** C6.  [handleApplyCoupon] compares the registered codes with the input
    after upper-casing both.  When some registered coupon has the same
    upper-cased code and is active, the applied coupon becomes such a coupon
    (the first of the registry), the error message and the input box are
    emptied; otherwise the state changes in the error message only, which
    becomes the invalid-coupon text, so the applied coupon and the cart are
    as before.  In both cases the cart and the registry are untouched, and
    the handler succeeds exactly when a valid coupon exists. *)
Theorem handleApplyCoupon_spec (s : State) :
  let s' := handleApplyCoupon s in
  let valid := validFor (couponInput s) (coupons s) in
  ((exists c, valid c) ->
   exists c, valid c /\
     s' = setCouponInput "" (setCouponError "" (setAppliedCoupon (Some c) s)) /\
     appliedCoupon s' = Some c /\ couponError s' = "") /\
  (~ (exists c, valid c) ->
   s' = setCouponError "Invalid or inactive coupon code" s /\
   couponError s' = "Invalid or inactive coupon code" /\
   appliedCoupon s' = appliedCoupon s) /\
  cart s' = cart s /\ coupons s' = coupons s /\
  ((exists c, valid c) <-> couponError s' = "").
Proof.
  intros s' valid. subst s' valid. unfold handleApplyCoupon, validFor.
  destruct (find _ (coupons s)) as [coupon|] eqn:Hfind.
  - apply find_some in Hfind. destruct Hfind as [Hin Hmatch].
    apply andb_true_iff in Hmatch. destruct Hmatch as [Hcode Hactive].
    apply String.eqb_eq in Hcode.
    assert (Hvalid : exists c, In c (coupons s) /\
                       toUpperCase (code c) = toUpperCase (couponInput s) /\
                       isActive c = true)
      by (exists coupon; tauto).
    split; [intros _; exists coupon; simpl; tauto|].
    split; [intros Hnone; contradiction|].
    simpl. tauto.
  - assert (Hnone : ~ exists c, In c (coupons s) /\
                      toUpperCase (code c) = toUpperCase (couponInput s) /\
                      isActive c = true).
    { intros [c [Hin [Hcode Hactive]]].
      pose proof (find_none _ _ Hfind c Hin) as Hmiss. simpl in Hmiss.
      rewrite Hcode, String.eqb_refl, Hactive in Hmiss. discriminate. }
    split; [intros Hsome; contradiction|].
    split; [intros _; simpl; tauto|].
    simpl. split; [reflexivity | split; [reflexivity|]].
    split; [intros Hsome; contradiction | discriminate].
Qed.

Lemma handleApplyCoupon_spec_witness :
  exists c,
    validFor "welcome10" (coupons initialState) c /\
    appliedCoupon (handleApplyCoupon (setCouponInput "welcome10" initialState)) = Some c.
Proof.
  pose proof (handleApplyCoupon_spec (setCouponInput "welcome10" initialState)) as H.
  cbv zeta in H. destruct H as (H & _).
  destruct H as [c (Hvalid & _ & Happlied & _)].
  - exists (mkCoupon "WELCOME10" 10 true).
    split; [left; reflexivity | split; reflexivity].
  - exists c. split; [exact Hvalid | exact Happlied].
Defined.

(** ** The order ledger along a session *)

Lemma map_total_withStatus (hit : Order -> bool) (st : Status) (ledger : list Order) :
  map o_total (map (fun order => if hit order then withStatus order st else order) ledger)
  = map o_total ledger.
Proof.
  rewrite map_map. apply map_ext.
  intros order. destruct (hit order); reflexivity.
Qed.

Lemma updateOrderStatus_frame (orderId : string) (st : Status) (s : State) :
  revenue (updateOrderStatus orderId st s) = revenue s /\
  totalOrders (updateOrderStatus orderId st s) = totalOrders s /\
  map o_total (orders (updateOrderStatus orderId st s)) = map o_total (orders s).
Proof.
  unfold updateOrderStatus. simpl.
  split; [reflexivity | split; [reflexivity | apply map_total_withStatus]].
Qed.

Lemma checkout_nonempty (orderId date : string) (s : State) :
  cart s <> [] ->
  checkout orderId date s =
    setCart []
      (setShowCheckoutSuccess true
         (setTotalOrders (totalOrders s + 1)%Z
            (setRevenue (revenue s + cartTotal (cart s) (appliedCoupon s))
               (setOrders
                  (mkOrder orderId date (cart s)
                     (cartTotal (cart s) (appliedCoupon s)) Pending :: orders s) s)))).
Proof.
  intros Hcart. unfold checkout.
  destruct (cart s) as [|item rest]; [contradiction | reflexivity].
Qed.

Section Session.

Variable Number : string -> number.

Lemma run_app (l1 l2 : list Action) (s : State) :
  run Number (l1 ++ l2) s = run Number l2 (run Number l1 s).
Proof.
  unfold run. apply fold_left_app.
Qed.

Lemma coupon_step_orders (a : Action) (s : State) :
  isCouponAction a = true -> orders (step Number a s) = orders s.
Proof.
  destruct a; simpl; try discriminate; intros _; try reflexivity.
  - unfold handleApplyCoupon. destruct (find _ (coupons s)); reflexivity.
  - unfold handleAddCoupon. destruct (falsy _ || falsy _); reflexivity.
Qed.

Lemma coupon_run_orders (l : list Action) (s : State) :
  forallb isCouponAction l = true -> orders (run Number l s) = orders s.
Proof.
  revert s. induction l as [|a l IH]; intros s Hl; simpl in *.
  - reflexivity.
  - apply andb_true_iff in Hl. destruct Hl as [Ha Hl].
    change (orders (run Number l (step Number a s)) = orders s).
    rewrite (IH _ Hl). apply coupon_step_orders. exact Ha.
Qed.

(** Every event other than a checkout of a non-empty cart leaves the two
    counters and the totals of the ledger as they are. *)
Lemma step_frame (a : Action) (s : State) :
  (forall orderId date, a = Checkout orderId date -> cart s = []) ->
  revenue (step Number a s) = revenue s /\
  totalOrders (step Number a s) = totalOrders s /\
  map o_total (orders (step Number a s)) = map o_total (orders s).
Proof.
  intros Hcheckout.
  destruct a; simpl; try (split; [reflexivity | split; reflexivity]).
  - rewrite (checkout_nil _ _ _ (Hcheckout _ _ eq_refl)).
    split; [reflexivity | split; reflexivity].
  - unfold customerReturn.
    destruct (nth_error (orders s) i) as [order|];
      [|split; [reflexivity | split; reflexivity]].
    destruct (o_status order);
      try (split; [reflexivity | split; reflexivity]).
    apply updateOrderStatus_frame.
  - unfold adminSelectStatus.
    destruct (nth_error (orders s) i) as [order|];
      [apply updateOrderStatus_frame | split; [reflexivity | split; reflexivity]].
  - unfold handleAddProduct.
    destruct (falsy _ || falsy _);
      split; [reflexivity | split; reflexivity | reflexivity | split; reflexivity].
  - unfold handleApplyCoupon.
    destruct (find _ (coupons s));
      split; [reflexivity | split; reflexivity | reflexivity | split; reflexivity].
  - unfold handleAddCoupon.
    destruct (falsy _ || falsy _);
      split; [reflexivity | split; reflexivity | reflexivity | split; reflexivity].
Qed.

Lemma countersMatchLedger_step (a : Action) (s : State) :
  countersMatchLedger s -> countersMatchLedger (step Number a s).
Proof.
  intros [Hrev Hcount].
  assert (Hcases : (exists orderId date, a = Checkout orderId date /\ cart s <> []) \/
                   (forall orderId date, a = Checkout orderId date -> cart s = [])).
  { destruct a; try (right; intros ? ? Heq; discriminate Heq).
    destruct (cart s) as [|item rest] eqn:Hcart.
    - right. intros _ _ _. reflexivity.
    - left. exists orderId, date. split; [reflexivity | discriminate]. }
  destruct Hcases as [[orderId [date [-> Hcart]]] | Hframe].
  - simpl. rewrite (checkout_nonempty _ _ _ Hcart).
    unfold countersMatchLedger. simpl. split.
    + rewrite Hrev. ring.
    + rewrite Hcount. lia.
  - destruct (step_frame a s Hframe) as (Hr & Ht & Ho).
    unfold countersMatchLedger. rewrite Hr, Ht, Ho.
    split; [exact Hrev|].
    rewrite Hcount. f_equal.
    rewrite <- (length_map o_total (orders s)), <- Ho. apply length_map.
Qed.

Lemma countersMatchLedger_run (l : list Action) (s : State) :
  countersMatchLedger s -> countersMatchLedger (run Number l s).
Proof.
  revert s. induction l as [|a l IH]; intros s Hs.
  - exact Hs.
  - apply (IH (step Number a s)). apply countersMatchLedger_step. exact Hs.
Qed.

(** Along any session the totals already in the ledger stay where they are;
    new ones are put in front of them. *)
Lemma ledger_totals_kept (l : list Action) (s : State) :
  exists newer,
    map o_total (orders (run Number l s)) = newer ++ map o_total (orders s).
Proof.
  revert s. induction l as [|a l IH]; intros s.
  - exists []. reflexivity.
  - destruct (IH (step Number a s)) as [newer Hnewer].
    change (run Number (a :: l) s) with (run Number l (step Number a s)).
    rewrite Hnewer.
    assert (Hstep : exists front,
               map o_total (orders (step Number a s)) = front ++ map o_total (orders s)).
    { destruct a;
        try (exists []; apply step_frame; intros ? ? Heq; discriminate Heq).
      simpl. unfold checkout. destruct (cart s) as [|item rest] eqn:Hcart.
      - exists []. reflexivity.
      - exists [cartTotal (item :: rest) (appliedCoupon s)]. reflexivity. }
    destruct Hstep as [front Hfront]. rewrite Hfront.
    exists (newer ++ front). rewrite app_assoc. reflexivity.
Qed.

(** C2.  The totals of the ledger are frozen.  From any state, a sequence of
    coupon events (typing and applying a code, removing the applied coupon,
    registering, toggling or deleting coupons) leaves the ledger as it is;
    under any sequence of events at all, the totals that were in the ledger
    stay, in their order, behind those of newer orders; and the order that
    [checkout] makes from a non-empty cart carries the [cartTotal] of that
    moment. *)
Theorem checkout_total_frozen (l : list Action) (s : State) :
  (forallb isCouponAction l = true -> orders (run Number l s) = orders s) /\
  (exists newer,
     map o_total (orders (run Number l s)) = newer ++ map o_total (orders s)) /\
  (forall orderId date,
     cart s <> [] ->
     orders (checkout orderId date s) =
       mkOrder orderId date (cart s) (cartTotal (cart s) (appliedCoupon s)) Pending
         :: orders s).
Proof.
  split; [apply coupon_run_orders|].
  split; [apply ledger_totals_kept|].
  intros orderId date Hcart.
  rewrite (checkout_nonempty _ _ _ Hcart). reflexivity.
Qed.

(** C10.  A checkout of a non-empty cart puts one new order at the head of
    the ledger, adds that order's total to [revenue] and 1 to [totalOrders];
    every other event (a checkout of an empty cart included) leaves both
    counters and the totals of the ledger unchanged, status changes among
    them; so in every state reached from the initial one [revenue] is the
    sum of the totals of the ledger and [totalOrders] is its length. *)
Theorem revenue_counts_orders :
  (forall orderId date s, cart s <> [] ->
     exists newOrder,
       orders (checkout orderId date s) = newOrder :: orders s /\
       o_total newOrder = cartTotal (cart s) (appliedCoupon s) /\
       revenue (checkout orderId date s) = revenue s + o_total newOrder /\
       totalOrders (checkout orderId date s) = (totalOrders s + 1)%Z) /\
  (forall a s, (forall orderId date, a = Checkout orderId date -> cart s = []) ->
     revenue (step Number a s) = revenue s /\
     totalOrders (step Number a s) = totalOrders s /\
     map o_total (orders (step Number a s)) = map o_total (orders s)) /\
  (forall l,
     revenue (run Number l initialState)
       == sum_of_amounts (map o_total (orders (run Number l initialState))) /\
     totalOrders (run Number l initialState)
       = Z.of_nat (List.length (orders (run Number l initialState)))).
Proof.
  split; [|split].
  - intros orderId date s Hcart.
    exists (mkOrder orderId date (cart s) (cartTotal (cart s) (appliedCoupon s)) Pending).
    rewrite (checkout_nonempty _ _ _ Hcart). simpl.
    split; [reflexivity | split; [reflexivity | split; reflexivity]].
  - exact step_frame.
  - intros l. apply (countersMatchLedger_run l initialState).
    split; reflexivity.
Qed.

(** ** Order status *)

Lemma NoDup_map_inj (ledger : list Order) (o1 o2 : Order) :
  NoDup (map o_id ledger) -> In o1 ledger -> In o2 ledger ->
  o_id o1 = o_id o2 -> o1 = o2.
Proof.
  induction ledger as [|o rest IH]; simpl; intros Hnodup H1 H2 Hid.
  - contradiction.
  - inversion Hnodup as [|? ? Hfresh Hrest]; subst.
    destruct H1 as [-> | H1], H2 as [-> | H2].
    + reflexivity.
    + exfalso. apply Hfresh. rewrite Hid. apply in_map. exact H2.
    + exfalso. apply Hfresh. rewrite <- Hid. apply in_map. exact H1.
    + apply IH; assumption.
Qed.

(** Events that leave the ledger alone. *)
Lemma step_orders_unchanged (a : Action) (s : State) :
  (forall orderId date, a <> Checkout orderId date) ->
  (forall i, a <> CustomerReturn i) ->
  (forall i st, a <> AdminSelectStatus i st) ->
  orders (step Number a s) = orders s.
Proof.
  intros Hc Hr Ha.
  destruct a; simpl; try reflexivity.
  - exfalso. exact (Hc _ _ eq_refl).
  - exfalso. exact (Hr _ eq_refl).
  - exfalso. exact (Ha _ _ eq_refl).
  - unfold handleAddProduct. destruct (falsy _ || falsy _); reflexivity.
  - unfold handleApplyCoupon. destruct (find _ (coupons s)); reflexivity.
  - unfold handleAddCoupon. destruct (falsy _ || falsy _); reflexivity.
Qed.

(** C7 (amended).  Apart from the admin's status select, an order is found
    in status Returned after an event only if it was Returned before, or it
    was Delivered and the event is the customer's Return button (order ids
    being pairwise distinct, an id names one order). *)
Theorem returned_only_from_delivered (a : Action) (s : State) (o' : Order) :
  NoDup (map o_id (orders s)) ->
  (forall i st, a <> AdminSelectStatus i st) ->
  In o' (orders (step Number a s)) ->
  o_status o' = Returned ->
  exists o, In o (orders s) /\ o_id o = o_id o' /\
    (o_status o = Returned \/
     (o_status o = Delivered /\ exists k, a = CustomerReturn k)).
Proof.
  intros Hnodup Hadmin Hin Hret.
  assert (Hsame : In o' (orders s) ->
                  exists o, In o (orders s) /\ o_id o = o_id o' /\
                    (o_status o = Returned \/
                     (o_status o = Delivered /\ exists k, a = CustomerReturn k)))
    by (intros Hold; exists o'; tauto).
  destruct a;
    try (apply Hsame; rewrite step_orders_unchanged in Hin;
         [exact Hin | discriminate | discriminate | discriminate]).
  - (* Checkout *)
    simpl in Hin. unfold checkout in Hin.
    destruct (cart s) as [|item rest]; [exact (Hsame Hin)|].
    simpl in Hin. destruct Hin as [<- | Hin]; [discriminate Hret | exact (Hsame Hin)].
  - (* CustomerReturn *)
    simpl in Hin. unfold customerReturn in Hin.
    destruct (nth_error (orders s) i) as [order|] eqn:Hnth; [|exact (Hsame Hin)].
    destruct (o_status order) eqn:Hstatus; try exact (Hsame Hin).
    unfold updateOrderStatus in Hin. simpl in Hin.
    apply in_map_iff in Hin. destruct Hin as [o0 [Hmap Hin0]].
    destruct (String.eqb (o_id o0) (o_id order)) eqn:Hid.
    + apply String.eqb_eq in Hid.
      assert (Ho0 : o0 = order)
        by (apply (NoDup_map_inj (orders s)); eauto using nth_error_In).
      subst o0. exists order. subst o'. simpl.
      split; [exact Hin0 | split; [reflexivity|]].
      right. split; [exact Hstatus | exists i; reflexivity].
    + subst o'. exists o0. tauto.
  - (* AdminSelectStatus *)
    exfalso. exact (Hadmin _ _ eq_refl).
Qed.

(** ** The coupon registry *)

Lemma upper_ascii_idempotent (c : ascii) :
  upper_ascii (upper_ascii c) = upper_ascii c.
Proof.
  destruct c as [[] [] [] [] [] [] [] []]; reflexivity.
Qed.

Lemma toUpperCase_idempotent (str : string) :
  toUpperCase (toUpperCase str) = toUpperCase str.
Proof.
  induction str as [|c rest IH]; simpl.
  - reflexivity.
  - rewrite upper_ascii_idempotent, IH. reflexivity.
Qed.

Lemma canonicalCodes_step (a : Action) (s : State) :
  canonicalCodes (coupons s) -> canonicalCodes (coupons (step Number a s)).
Proof.
  unfold canonicalCodes. intros Hs.
  destruct a; simpl; try exact Hs.
  - unfold checkout. destruct (cart s); exact Hs.
  - unfold customerReturn. destruct (nth_error (orders s) i) as [order|]; [|exact Hs].
    destruct (o_status order); exact Hs.
  - unfold adminSelectStatus. destruct (nth_error (orders s) i); exact Hs.
  - unfold handleAddProduct. destruct (falsy _ || falsy _); exact Hs.
  - unfold handleApplyCoupon. destruct (find _ (coupons s)); exact Hs.
  - unfold handleAddCoupon. destruct (falsy _ || falsy _); [exact Hs|].
    simpl. apply Forall_app. split; [exact Hs|].
    constructor; [apply toUpperCase_idempotent | constructor].
  - apply Forall_forall. intros c Hin. apply in_map_iff in Hin.
    destruct Hin as [c0 [Hc0 Hin]].
    rewrite Forall_forall in Hs. specialize (Hs c0 Hin).
    destruct (String.eqb (code c0) code0); subst c; exact Hs.
  - apply Forall_forall. intros c Hin. apply filter_In in Hin.
    rewrite Forall_forall in Hs. apply Hs. tauto.
Qed.

Lemma canonicalCodes_run (l : list Action) (s : State) :
  canonicalCodes (coupons s) -> canonicalCodes (coupons (run Number l s)).
Proof.
  revert s. induction l as [|a l IH]; intros s Hs.
  - exact Hs.
  - apply (IH (step Number a s)). apply canonicalCodes_step. exact Hs.
Qed.

(** C9 (amended).  [handleAddCoupon], when both form fields are filled,
    appends to the registry an active coupon whose code is the upper-cased
    input, whatever the registry holds already; in every state reached from
    the initial one each registered code is its own upper-casing.  (Codes are
    not kept unique.) *)
Theorem coupon_codes_canonical :
  (forall s,
     falsy (nc_code (newCoupon s)) = false ->
     falsy (nc_discount (newCoupon s)) = false ->
     coupons (handleAddCoupon Number s) =
       coupons s ++ [mkCoupon (toUpperCase (nc_code (newCoupon s)))
                              (Number (nc_discount (newCoupon s))) true]) /\
  (forall l c, In c (coupons (run Number l initialState)) ->
     toUpperCase (code c) = code c).
Proof.
  split.
  - intros s Hcode Hdiscount. unfold handleAddCoupon.
    rewrite Hcode, Hdiscount. reflexivity.
  - intros l c Hin.
    assert (Hall : canonicalCodes (coupons (run Number l initialState))).
    { apply canonicalCodes_run. constructor; [reflexivity | constructor]. }
    unfold canonicalCodes in Hall. rewrite Forall_forall in Hall.
    apply Hall. exact Hin.
Qed.

End Session.

(** ** The sessions of the examples *)

Lemma checkout_total_frozen_witness :
  orders (run decimalNumber
            [RemoveAppliedCoupon; ToggleCouponStatus "WELCOME10"; DeleteCoupon "WELCOME10";
             SetCouponInput "welcome10"; HandleApplyCoupon]
            (run decimalNumber [AddToCart watch] pendingOrderSession))
  = orders (run decimalNumber [AddToCart watch] pendingOrderSession).
Proof.
  destruct (checkout_total_frozen decimalNumber
              [RemoveAppliedCoupon; ToggleCouponStatus "WELCOME10"; DeleteCoupon "WELCOME10";
               SetCouponInput "welcome10"; HandleApplyCoupon]
              (run decimalNumber [AddToCart watch] pendingOrderSession))
    as [Hfrozen _].
  exact (Hfrozen eq_refl).
Defined.

Lemma revenue_counts_orders_witness :
  exists newOrder,
    orders (checkout "ORD-A1B2C3D4E" "1/1/2025, 10:00:00 AM" welcomeSession)
      = newOrder :: orders welcomeSession /\
    revenue (checkout "ORD-A1B2C3D4E" "1/1/2025, 10:00:00 AM" welcomeSession)
      = revenue welcomeSession + o_total newOrder.
Proof.
  destruct (revenue_counts_orders decimalNumber) as (Hcheckout & _).
  destruct (Hcheckout "ORD-A1B2C3D4E" "1/1/2025, 10:00:00 AM" welcomeSession)
    as [newOrder (Horders & _ & Hrevenue & _)].
  - intros Hcart. vm_compute in Hcart. discriminate Hcart.
  - exists newOrder. split; [exact Horders | exact Hrevenue].
Defined.

Lemma returned_only_from_delivered_witness :
  exists o, In o (orders deliveredOrderSession) /\ o_status o = Delivered.
Proof.
  destruct (returned_only_from_delivered decimalNumber (CustomerReturn 0)
              deliveredOrderSession
              (mkOrder "ORD-A1B2C3D4E" "1/1/2025, 10:00:00 AM" [withProduct mug 1] 899 Returned))
    as [o (Hin & _ & [Hret | [Hdel _]])].
  - vm_compute. constructor; [intros [] | constructor].
  - discriminate.
  - vm_compute. left. reflexivity.
  - reflexivity.
  - exfalso. vm_compute in Hin. destruct Hin as [<- | []]. discriminate Hret.
  - exists o. split; [exact Hin | exact Hdel].
Defined.

(** C7 as stated fails: the status select of the admin table turns a pending
    order into a returned one. *)
Lemma admin_select_returns_pending_order :
  map o_status (orders pendingOrderSession) = [Pending] /\
  map o_status
    (orders (step decimalNumber (AdminSelectStatus 0 Returned) pendingOrderSession))
  = [Returned].
Proof.
  split; reflexivity.
Qed.

Lemma coupon_codes_canonical_witness :
  coupons (handleAddCoupon decimalNumber
             (setNewCoupon (mkNewCouponForm "save" "20") initialState))
  = [mkCoupon "WELCOME10" 10 true; mkCoupon "SAVE" 20 true].
Proof.
  destruct (coupon_codes_canonical decimalNumber) as (Hadd & _).
  rewrite (Hadd (setNewCoupon (mkNewCouponForm "save" "20") initialState));
    reflexivity.
Defined.

(** C9 as stated fails: after the code [save] is registered twice the
    registry holds two coupons of code [SAVE]. *)
Lemma registry_holds_duplicate_codes :
  map code (coupons duplicateCouponSession) = ["WELCOME10"; "SAVE"; "SAVE"] /\
  ~ NoDup (map (fun c => toUpperCase (code c)) (coupons duplicateCouponSession)).
Proof.
  split; [reflexivity|].
  intros Hnodup. vm_compute in Hnodup.
  inversion Hnodup as [|? ? _ Hrest]; subst.
  inversion Hrest as [|? ? Hfresh _]; subst.
  apply Hfresh. left. reflexivity.
Qed.

(** C8 (amended).  For a cart of one line of price 12999 and quantity 1 and
    one line of price 4500 and quantity 2, with a coupon of 10 percent
    applied: the subtotal is 21999, [discountAmount] is 2199.9 (no rounding
    is applied) and [cartTotal] is 19799.1; [checkout] puts one new order
    with that total and status Pending at the head of the ledger and empties
    the cart. *)
Theorem welcome_scenario (s : State) (coupon : Coupon) :
  map (fun item => (price item, quantity item)) (cart s) = [(12999, 1%Z); (4500, 2%Z)] ->
  appliedCoupon s = Some coupon ->
  discount coupon = 10 ->
  subtotal (cart s) == 21999 /\
  discountAmount (subtotal (cart s)) (appliedCoupon s) == 2199.9 /\
  cartTotal (cart s) (appliedCoupon s) == 19799.1 /\
  forall orderId date,
    exists newOrder,
      orders (checkout orderId date s) = newOrder :: orders s /\
      o_total newOrder == 19799.1 /\
      o_status newOrder = Pending /\
      cart (checkout orderId date s) = [].
Proof.
  intros Hcart Hcoupon Hdiscount.
  destruct (cart s) as [|item1 [|item2 [|item3 rest]]] eqn:Hlines;
    try discriminate Hcart.
  simpl in Hcart. injection Hcart as Hp1 Hq1 Hp2 Hq2.
  assert (Hsub : subtotal [item1; item2] == 21999).
  { unfold subtotal. simpl. rewrite Hp1, Hq1, Hp2, Hq2. reflexivity. }
  assert (Htotal : cartTotal [item1; item2] (Some coupon) == 19799.1).
  { unfold cartTotal. simpl. rewrite Hsub, Hdiscount. reflexivity. }
  rewrite Hcoupon.
  split; [exact Hsub|].
  split; [simpl; rewrite Hsub, Hdiscount; reflexivity|].
  split; [exact Htotal|].
  intros orderId date.
  exists (mkOrder orderId date [item1; item2] (cartTotal [item1; item2] (Some coupon)) Pending).
  unfold checkout. rewrite Hlines, Hcoupon. simpl.
  split; [reflexivity | split; [exact Htotal | split; reflexivity]].
Qed.

Lemma welcome_scenario_witness :
  cartTotal (cart welcomeSession) (appliedCoupon welcomeSession) == 19799.1.
Proof.
  apply (welcome_scenario welcomeSession (mkCoupon "WELCOME10" 10 true));
    reflexivity.
Defined.

(** C8 as stated fails: the discount amount is 2199.9, not 2200, and the
    total is 19799.1, not 19799. *)
Lemma welcome_scenario_not_rounded :
  ~ (discountAmount (subtotal (cart welcomeSession)) (appliedCoupon welcomeSession) == 2200) /\
  ~ (cartTotal (cart welcomeSession) (appliedCoupon welcomeSession) == 19799).
Proof.
  split; intros H; vm_compute in H; discriminate H.
Qed.

(** * Further properties of the handlers *)

(** ** Cart lines *)

Lemma withQuantity_same (item : CartItem) :
  withQuantity item (quantity item) = item.
Proof.
  destruct item. reflexivity.
Qed.

Lemma filter_miss (hit : CartItem -> bool) (cart : list CartItem) :
  existsb hit cart = false ->
  filter (fun item => negb (hit item)) cart = cart.
Proof.
  induction cart as [|item rest IH]; simpl; intros Hmiss.
  - reflexivity.
  - apply orb_false_iff in Hmiss. destruct Hmiss as [Hitem Hrest].
    rewrite Hitem. simpl. rewrite (IH Hrest). reflexivity.
Qed.

Lemma NoDup_map_filter {A B : Type} (f : A -> B) (keep : A -> bool) (l : list A) :
  NoDup (map f l) -> NoDup (map f (filter keep l)).
Proof.
  induction l as [|x rest IH]; simpl; intros Hnodup.
  - constructor.
  - inversion Hnodup as [|? ? Hfresh Hrest]; subst.
    destruct (keep x); simpl; [|exact (IH Hrest)].
    constructor; [|exact (IH Hrest)].
    intros Hin. apply Hfresh. apply in_map_iff in Hin.
    destruct Hin as [y [Hy Hin]]. apply filter_In in Hin.
    apply in_map_iff. exists y. tauto.
Qed.

(** X1.  [removeFromCart] keeps exactly the lines whose id differs from
    [productId]: no line of that id is left, a cart without that id is
    returned as it is, and removing twice is removing once. *)
Theorem removeFromCart_spec (productId : Z) (cart : list CartItem) :
  let removed := CartUpdate.removeFromCart productId cart in
  (forall item, In item removed <-> In item cart /\ id item <> productId) /\
  ~ In productId (map id removed) /\
  (existsb (fun item => (id item =? productId)%Z) cart = false -> removed = cart) /\
  CartUpdate.removeFromCart productId removed = removed.
Proof.
  intros removed. subst removed. unfold CartUpdate.removeFromCart.
  assert (Hin : forall item,
             In item (filter (fun item => negb (id item =? productId)%Z) cart)
             <-> In item cart /\ id item <> productId).
  { intros item. rewrite filter_In, negb_true_iff, Z.eqb_neq. tauto. }
  split; [exact Hin|].
  split.
  - intros Hid. apply in_map_iff in Hid. destruct Hid as [item [Hitem Hitem']].
    apply Hin in Hitem'. tauto.
  - split; [apply filter_miss|].
    apply (filter_miss (fun item => (id item =? productId)%Z)).
    destruct (existsb _ _) eqn:Hex; [|reflexivity].
    apply existsb_exists in Hex. destruct Hex as [item [Hitem Hhit]].
    apply Hin in Hitem. apply Z.eqb_eq in Hhit. tauto.
Qed.

Lemma removeFromCart_spec_witness :
  CartUpdate.removeFromCart 2 [withProduct headphones 1] = [withProduct headphones 1].
Proof.
  pose proof (removeFromCart_spec 2 [withProduct headphones 1]) as H.
  cbv zeta in H. destruct H as (_ & _ & H & _).
  apply H. reflexivity.
Defined.

(** X2.  Putting a product that the cart does not hold into the cart and
    removing its id gives back the cart. *)
Theorem removeFromCart_addToCart (product : Product) (cart : list CartItem) :
  existsb (fun item => (id item =? p_id product)%Z) cart = false ->
  CartUpdate.removeFromCart (p_id product) (CartUpdate.addToCart product cart) = cart.
Proof.
  intros Habsent. unfold CartUpdate.addToCart, CartUpdate.removeFromCart.
  rewrite (proj2 (find_existsb _ cart) Habsent).
  rewrite filter_app. simpl. rewrite Z.eqb_refl. simpl.
  rewrite (filter_miss _ _ Habsent). apply app_nil_r.
Qed.

Lemma removeFromCart_addToCart_witness :
  CartUpdate.removeFromCart 2 (CartUpdate.addToCart watch [withProduct headphones 1])
  = [withProduct headphones 1].
Proof.
  apply (removeFromCart_addToCart watch [withProduct headphones 1]). reflexivity.
Defined.

(** X3.  On a cart whose quantities are at least 1, [updateQuantity] by +1
    followed by [updateQuantity] by -1 on the same id gives back the cart.  The
    other order does not: a line of quantity 1 ends with quantity 2. *)
Theorem updateQuantity_up_down (productId : Z) (cart : list CartItem) :
  Forall (fun item => (1 <= quantity item)%Z) cart ->
  CartUpdate.updateQuantity productId (-1) (CartUpdate.updateQuantity productId 1 cart)
    = cart /\
  (forall item, In item cart -> id item = productId -> quantity item = 1%Z ->
     In (withQuantity item 2)
        (CartUpdate.updateQuantity productId 1
           (CartUpdate.updateQuantity productId (-1) cart))).
Proof.
  intros Hq. unfold CartUpdate.updateQuantity. split.
  - rewrite map_map. rewrite <- (map_id cart) at 2.
    apply map_ext_in. intros item Hin.
    rewrite Forall_forall in Hq. specialize (Hq item Hin).
    destruct (id item =? productId)%Z eqn:Hhit; simpl; rewrite Hhit; [|reflexivity].
    unfold withQuantity. simpl.
    replace (Z.max 1 (Z.max 1 (quantity item + 1) + -1)) with (quantity item) by lia.
    apply withQuantity_same.
  - intros item Hin Hid Hone. rewrite map_map. apply in_map_iff.
    exists item. split; [|exact Hin].
    apply Z.eqb_eq in Hid. rewrite Hid. simpl. rewrite Hid.
    unfold withQuantity. simpl. rewrite Hone. reflexivity.
Qed.

Lemma updateQuantity_up_down_witness :
  CartUpdate.updateQuantity 2 (-1) (CartUpdate.updateQuantity 2 1 [withProduct watch 1])
  = [withProduct watch 1].
Proof.
  apply (updateQuantity_up_down 2 [withProduct watch 1]).
  constructor; [simpl; lia | constructor].
Defined.

(** ** Counting and pricing the cart *)

Lemma cartCount_from (cart : list CartItem) (acc : Z) :
  fold_left (fun sum item => (sum + quantity item)%Z) cart acc
  = (acc + sum_of_quantities cart)%Z.
Proof.
  revert acc. induction cart as [|item rest IH]; intros acc; simpl.
  - lia.
  - rewrite IH. lia.
Qed.

Lemma cartCount_sum (cart : list CartItem) :
  cartCount cart = sum_of_quantities cart.
Proof.
  unfold cartCount. rewrite cartCount_from. lia.
Qed.

Lemma sum_of_quantities_app (c1 c2 : list CartItem) :
  sum_of_quantities (c1 ++ c2) = (sum_of_quantities c1 + sum_of_quantities c2)%Z.
Proof.
  induction c1 as [|item rest IH]; simpl; [reflexivity | rewrite IH; lia].
Qed.

Lemma sum_of_lines_app (c1 c2 : list CartItem) :
  sum_of_lines (c1 ++ c2) == sum_of_lines c1 + sum_of_lines c2.
Proof.
  induction c1 as [|item rest IH]; simpl; [ring | rewrite IH; ring].
Qed.

(** One more unit on the line of [productId], when the ids are distinct. *)
Lemma bump_sums (productId : Z) (cart : list CartItem) (line : CartItem) :
  NoDup (map id cart) ->
  find (fun item => (id item =? productId)%Z) cart = Some line ->
  let bumped :=
    map (fun item =>
           if (id item =? productId)%Z
           then withQuantity item (quantity item + 1) else item) cart in
  sum_of_quantities bumped = (sum_of_quantities cart + 1)%Z /\
  sum_of_lines bumped == sum_of_lines cart + price line.
Proof.
  intros Hnodup Hfind bumped. subst bumped.
  induction cart as [|item rest IH]; simpl in *; [discriminate Hfind|].
  inversion Hnodup as [|? ? Hfresh Hrest]; subst.
  destruct (id item =? productId)%Z eqn:Hhit.
  - injection Hfind as <-. apply Z.eqb_eq in Hhit.
    assert (Hmiss : existsb (fun it => (id it =? productId)%Z) rest = false).
    { destruct (existsb _ rest) eqn:Hex; [|reflexivity].
      apply existsb_exists in Hex. destruct Hex as [it [Hin Hid]].
      apply Z.eqb_eq in Hid. exfalso. apply Hfresh.
      rewrite Hhit, <- Hid. apply in_map. exact Hin. }
    rewrite (map_miss _ _ _ Hmiss). simpl. split; [lia|].
    rewrite inject_Z_plus. ring.
  - destruct (IH Hrest Hfind) as [Hcount Hlines]. split.
    + rewrite Hcount. lia.
    + rewrite Hlines. ring.
Qed.

(** X4.  On a cart with pairwise distinct ids, [addToCart] raises the item
    count of the badge by exactly 1.  Where the amounts are exact (lines of
    non-negative integer price, the new subtotal at most 2^53) it raises the
    subtotal by one unit price: the price of the line already in the cart
    when there is one (not the product's current price), the product's price
    otherwise. *)
Theorem addToCart_totals (product : Product) (cart : list CartItem) :
  NoDup (map id cart) ->
  cartCount (CartUpdate.addToCart product cart) = (cartCount cart + 1)%Z /\
  (Forall exactLine cart ->
   exactAmounts (CartUpdate.addToCart product cart) ->
   subtotal (CartUpdate.addToCart product cart)
     == subtotal cart + unitPriceIn product cart).
Proof.
  intros Hnodup. rewrite !cartCount_sum, !subtotal_sum_of_lines.
  unfold CartUpdate.addToCart, unitPriceIn.
  destruct (find _ cart) as [line|] eqn:Hfind.
  - destruct (bump_sums _ _ _ Hnodup Hfind) as [Hcount Hlines].
    split; [exact Hcount | intros _ _; exact Hlines].
  - rewrite sum_of_quantities_app, sum_of_lines_app. simpl.
    split; [lia | intros _ _; ring].
Qed.

Lemma addToCart_totals_witness :
  subtotal (CartUpdate.addToCart watch [withProduct headphones 1; withProduct watch 1])
  == subtotal [withProduct headphones 1; withProduct watch 1] + 4500.
Proof.
  assert (Hh : exactLine (withProduct headphones 1))
    by (split; [exists 12999%Z; split; [lia | reflexivity] | simpl; lia]).
  assert (Hw1 : exactLine (withProduct watch 1))
    by (split; [exists 4500%Z; split; [lia | reflexivity] | simpl; lia]).
  assert (Hw2 : exactLine (withProduct watch 2))
    by (split; [exists 4500%Z; split; [lia | reflexivity] | simpl; lia]).
  apply (addToCart_totals watch [withProduct headphones 1; withProduct watch 1]).
  - simpl. constructor; [intros [H | []]; discriminate H|].
    constructor; [intros [] | constructor].
  - constructor; [exact Hh | constructor; [exact Hw1 | constructor]].
  - split.
    + constructor; [exact Hh | constructor; [exact Hw2 | constructor]].
    + vm_compute. discriminate.
Defined.

(** X5.  The item count of a cart whose quantities are at least 1 is at
    least its number of lines; and where the amounts are exact (lines of
    non-negative integer price, subtotal at most 2^53) removing the id of a
    line from a cart with pairwise distinct ids lowers the subtotal by that
    line's price times its quantity. *)
Theorem removeFromCart_totals (cart : list CartItem) :
  cartWellFormed cart ->
  (Z.of_nat (List.length cart) <= cartCount cart)%Z /\
  (exactAmounts cart ->
   forall line, In line cart ->
     subtotal (CartUpdate.removeFromCart (id line) cart)
       == subtotal cart - price line * inject_Z (quantity line)).
Proof.
  intros [Hnodup Hq]. split.
  - rewrite cartCount_sum. clear Hnodup.
    induction Hq as [|item rest Hitem _ IH]; simpl List.length; simpl sum_of_quantities; lia.
  - intros _ line Hin. rewrite !subtotal_sum_of_lines.
    unfold CartUpdate.removeFromCart. clear Hq.
    induction cart as [|item rest IH]; [contradiction|].
    inversion Hnodup as [|? ? Hfresh Hrest]; subst.
    simpl. destruct Hin as [-> | Hin].
    + rewrite Z.eqb_refl. simpl.
      assert (Hmiss : existsb (fun it => (id it =? id line)%Z) rest = false).
      { destruct (existsb _ rest) eqn:Hex; [|reflexivity].
        apply existsb_exists in Hex. destruct Hex as [it [Hit Hid]].
        apply Z.eqb_eq in Hid. exfalso. apply Hfresh.
        rewrite <- Hid. apply in_map. exact Hit. }
      rewrite (filter_miss _ _ Hmiss). ring.
    + assert (Hneq : (id item =? id line)%Z = false).
      { apply Z.eqb_neq. intros Heq. apply Hfresh. rewrite Heq.
        apply in_map. exact Hin. }
      rewrite Hneq. simpl. rewrite (IH Hrest Hin). ring.
Qed.

Lemma removeFromCart_totals_witness :
  subtotal (CartUpdate.removeFromCart 2 [withProduct headphones 1; withProduct watch 2])
  == subtotal [withProduct headphones 1; withProduct watch 2] - 4500 * inject_Z 2.
Proof.
  assert (Hwf : cartWellFormed [withProduct headphones 1; withProduct watch 2]).
  { split.
    - simpl. constructor; [intros [H | []]; discriminate H|].
      constructor; [intros [] | constructor].
    - repeat constructor; simpl; lia. }
  assert (Hexact : exactAmounts [withProduct headphones 1; withProduct watch 2]).
  { split.
    - constructor; [|constructor; [|constructor]].
      + split; [exists 12999%Z; split; [lia | reflexivity] | simpl; lia].
      + split; [exists 4500%Z; split; [lia | reflexivity] | simpl; lia].
    - vm_compute. discriminate. }
  destruct (removeFromCart_totals _ Hwf) as [_ H].
  apply (H Hexact (withProduct watch 2)). right. left. reflexivity.
Defined.

(** ** The wishlist *)

Lemma filter_absent (productId : Z) (l : list Z) :
  ~ In productId l -> filter (fun i => negb (i =? productId)%Z) l = l.
Proof.
  induction l as [|x rest IH]; simpl; intros Habsent.
  - reflexivity.
  - destruct (x =? productId)%Z eqn:Hx.
    + apply Z.eqb_eq in Hx. exfalso. apply Habsent. left. exact Hx.
    + simpl. rewrite IH; [reflexivity|]. intros Hin. apply Habsent. right. exact Hin.
Qed.

Lemma existsb_eqb_In (productId : Z) (l : list Z) :
  existsb (Z.eqb productId) l = true <-> In productId l.
Proof.
  rewrite existsb_exists. split.
  - intros [x [Hin Hx]]. apply Z.eqb_eq in Hx. subst x. exact Hin.
  - intros Hin. exists productId. split; [exact Hin | apply Z.eqb_refl].
Qed.

Lemma toggleWishlist_present (productId : Z) (s : State) :
  In productId (wishlist s) ->
  wishlist (toggleWishlist productId s)
  = filter (fun i => negb (i =? productId)%Z) (wishlist s).
Proof.
  intros Hin. unfold toggleWishlist. simpl.
  rewrite (proj2 (existsb_eqb_In _ _) Hin). reflexivity.
Qed.

Lemma toggleWishlist_absent (productId : Z) (s : State) :
  ~ In productId (wishlist s) ->
  wishlist (toggleWishlist productId s) = wishlist s ++ [productId].
Proof.
  intros Habsent. unfold toggleWishlist. simpl.
  destruct (existsb (Z.eqb productId) (wishlist s)) eqn:Hex; [|reflexivity].
  apply existsb_eqb_In in Hex. contradiction.
Qed.

Lemma toggleWishlist_NoDup (productId : Z) (s : State) :
  NoDup (wishlist s) -> NoDup (wishlist (toggleWishlist productId s)).
Proof.
  intros Hnodup.
  destruct (in_dec Z.eq_dec productId (wishlist s)) as [Hin | Habsent].
  - rewrite (toggleWishlist_present _ _ Hin). apply NoDup_filter. exact Hnodup.
  - rewrite (toggleWishlist_absent _ _ Habsent).
    apply NoDup_app; [exact Hnodup | constructor; [intros [] | constructor] |].
    intros x Hx [<- | []]. contradiction.
Qed.

(** X6.  [toggleWishlist] flips the membership of [productId] and of no
    other id: an id that is not in the wishlist is appended at its end, an id
    that is in it is filtered out, the other ids keeping their order.  It
    keeps a duplicate-free wishlist duplicate-free.  Toggling twice gives back
    the same members: the very same state when the id was not in the
    wishlist, and the wishlist with the id moved to its end when it was. *)
Theorem toggleWishlist_spec (productId : Z) (s : State) :
  (~ In productId (wishlist s) ->
   wishlist (toggleWishlist productId s) = wishlist s ++ [productId]) /\
  (In productId (wishlist s) ->
   wishlist (toggleWishlist productId s)
   = filter (fun i => negb (i =? productId)%Z) (wishlist s)) /\
  (In productId (wishlist s) ->
   wishlist (toggleWishlist productId (toggleWishlist productId s))
   = filter (fun i => negb (i =? productId)%Z) (wishlist s) ++ [productId]) /\
  (In productId (wishlist (toggleWishlist productId s)) <-> ~ In productId (wishlist s)) /\
  (forall x, x <> productId ->
     (In x (wishlist (toggleWishlist productId s)) <-> In x (wishlist s))) /\
  (forall x, In x (wishlist (toggleWishlist productId (toggleWishlist productId s)))
             <-> In x (wishlist s)) /\
  (~ In productId (wishlist s) ->
   toggleWishlist productId (toggleWishlist productId s) = s) /\
  (NoDup (wishlist s) -> NoDup (wishlist (toggleWishlist productId s))).
Proof.
  assert (Hflip : forall t,
            In productId (wishlist (toggleWishlist productId t))
            <-> ~ In productId (wishlist t)).
  { intros t. destruct (in_dec Z.eq_dec productId (wishlist t)) as [Hin | Habsent].
    - rewrite (toggleWishlist_present _ _ Hin), filter_In, Z.eqb_refl. simpl.
      split; [intros [_ H]; discriminate H | contradiction].
    - rewrite (toggleWishlist_absent _ _ Habsent), in_app_iff. simpl. tauto. }
  assert (Hother : forall t x, x <> productId ->
            (In x (wishlist (toggleWishlist productId t)) <-> In x (wishlist t))).
  { intros t x Hx. destruct (in_dec Z.eq_dec productId (wishlist t)) as [Hin | Habsent].
    - rewrite (toggleWishlist_present _ _ Hin), filter_In, negb_true_iff, Z.eqb_neq.
      tauto.
    - rewrite (toggleWishlist_absent _ _ Habsent), in_app_iff. simpl.
      split; [intros [H | [H | []]]; [exact H | congruence] | tauto]. }
  split; [apply toggleWishlist_absent|].
  split; [apply toggleWishlist_present|].
  split.
  { intros Hin.
    assert (Hgone : ~ In productId (wishlist (toggleWishlist productId s)))
      by (intros Hstill; apply Hflip in Hstill; contradiction).
    rewrite (toggleWishlist_absent _ _ Hgone), (toggleWishlist_present _ _ Hin).
    reflexivity. }
  split; [apply Hflip|].
  split; [apply Hother|].
  split; [|split; [|apply toggleWishlist_NoDup]].
  - intros x. destruct (Z.eq_dec x productId) as [-> | Hx].
    + rewrite Hflip, Hflip.
      destruct (in_dec Z.eq_dec productId (wishlist s)); tauto.
    + rewrite (Hother _ x Hx). apply Hother. exact Hx.
  - intros Habsent.
    assert (Hin : In productId (wishlist (toggleWishlist productId s)))
      by (apply Hflip; exact Habsent).
    unfold toggleWishlist at 1.
    rewrite (proj2 (existsb_eqb_In _ _) Hin).
    rewrite (toggleWishlist_absent _ _ Habsent), filter_app. simpl.
    rewrite Z.eqb_refl. simpl. rewrite (filter_absent _ _ Habsent), app_nil_r.
    destruct s. reflexivity.
Qed.

Lemma toggleWishlist_spec_witness :
  wishlist (toggleWishlist 1 (toggleWishlist 1 (setWishlist [1%Z; 2%Z; 3%Z] initialState)))
  = [2%Z; 3%Z; 1%Z].
Proof.
  pose proof (toggleWishlist_spec 1 (setWishlist [1%Z; 2%Z; 3%Z] initialState)) as H.
  destruct H as (_ & _ & H & _).
  apply H. left. reflexivity.
Defined.

(** ** The catalog *)

Lemma includes_occurs (s sub : string) :
  includes s sub = true <-> exists before rest, s = (before ++ sub ++ rest)%string.
Proof.
  assert (Hstarts : forall t u, startsWith t u = true <-> exists rest, t = (u ++ rest)%string).
  { intros t u. revert t. induction u as [|c u IH]; intros t; simpl.
    - split; [intros _; exists t; reflexivity | reflexivity].
    - destruct t as [|d t].
      + split; [discriminate | intros [rest H]; discriminate H].
      + rewrite andb_true_iff, Ascii.eqb_eq, IH. split.
        * intros [-> [rest ->]]. exists rest. reflexivity.
        * intros [rest H]. injection H as -> ->. split; [reflexivity | exists rest; reflexivity]. }
  induction s as [|d s IH]; simpl.
  - rewrite orb_false_r, Hstarts. split.
    + intros [rest H]. exists EmptyString, rest. exact H.
    + intros [before [rest H]]. destruct before as [|b before]; [|discriminate H].
      exists rest. exact H.
  - rewrite orb_true_iff, Hstarts, IH. split.
    + intros [[rest H] | [before [rest H]]].
      * exists EmptyString, rest. exact H.
      * exists (String d before), rest. simpl. rewrite H. reflexivity.
    + intros [before [rest H]]. destruct before as [|b before].
      * left. exists rest. exact H.
      * right. simpl in H. injection H as _ H. exists before, rest. exact H.
Qed.

Lemma lower_upper_ascii (c : ascii) :
  lower_ascii (upper_ascii c) = lower_ascii c.
Proof.
  destruct c as [[] [] [] [] [] [] [] []]; reflexivity.
Qed.

Lemma toLowerCase_toUpperCase (s : string) :
  toLowerCase (toUpperCase s) = toLowerCase s.
Proof.
  induction s as [|c rest IH]; simpl.
  - reflexivity.
  - rewrite lower_upper_ascii, IH. reflexivity.
Qed.

(** X7.  The search of the shop view: the empty query shows the whole
    catalog; a product is shown exactly when it is in the catalog and its
    lower-cased name contains the lower-cased query; an ASCII query and its
    upper-casing show the same products. *)
Theorem filteredProducts_spec (products : list Product) :
  filteredProducts products "" = products /\
  (forall searchQuery product,
     In product (filteredProducts products searchQuery) <->
     In product products /\
     exists before rest,
       toLowerCase (p_name product)
       = (before ++ toLowerCase searchQuery ++ rest)%string) /\
  (forall searchQuery,
     asciiOnly searchQuery = true ->
     filteredProducts products (toUpperCase searchQuery)
     = filteredProducts products searchQuery).
Proof.
  unfold filteredProducts. split; [|split].
  - induction products as [|p rest IH]; simpl; [reflexivity|].
    assert (H : includes (toLowerCase (p_name p)) "" = true)
      by (destruct (toLowerCase (p_name p)); reflexivity).
    rewrite H. f_equal. exact IH.
  - intros searchQuery product. rewrite filter_In, includes_occurs. tauto.
  - intros searchQuery _. rewrite toLowerCase_toUpperCase. reflexivity.
Qed.

Lemma filteredProducts_spec_witness :
  filteredProducts INITIAL_PRODUCTS (toUpperCase "watch")
  = filteredProducts INITIAL_PRODUCTS "watch".
Proof.
  destruct (filteredProducts_spec INITIAL_PRODUCTS) as (_ & _ & H).
  apply (H "watch"). reflexivity.
Defined.

(** X8.  The wishlist view shows the catalog's products whose id is in the
    wishlist, in catalog order; after [deleteProduct] it shows the same
    products but those of the deleted id, although the wishlist still holds
    the id. *)
Theorem wishlistProducts_deleteProduct (productId : Z) (s : State) :
  wishlist (deleteProduct productId s) = wishlist s /\
  wishlistProducts (products (deleteProduct productId s)) (wishlist s)
  = filter (fun p => negb (p_id p =? productId)%Z)
      (wishlistProducts (products s) (wishlist s)) /\
  (forall p, In p (wishlistProducts (products s) (wishlist s)) <->
             In p (products s) /\ In (p_id p) (wishlist s)).
Proof.
  split; [reflexivity|]. split.
  - unfold wishlistProducts, deleteProduct. simpl.
    induction (products s) as [|p rest IH]; simpl; [reflexivity|].
    destruct (p_id p =? productId)%Z eqn:Hid;
      destruct (existsb (Z.eqb (p_id p)) (wishlist s)) eqn:Hwish;
      simpl; rewrite ?Hid, ?Hwish; simpl; rewrite ?IH; reflexivity.
  - intros p. unfold wishlistProducts. rewrite filter_In, existsb_eqb_In. tauto.
Qed.

Lemma falsy_empty (str : string) : falsy str = true <-> str = "".
Proof.
  destruct str; simpl; split; intros H; (reflexivity || discriminate H).
Qed.

Lemma filter_fresh_id (productId : Z) (catalog : list Product) :
  ~ In productId (map p_id catalog) ->
  filter (fun p => negb (p_id p =? productId)%Z) catalog = catalog.
Proof.
  induction catalog as [|p rest IH]; simpl; intros Hfresh.
  - reflexivity.
  - destruct (p_id p =? productId)%Z eqn:Hid.
    + apply Z.eqb_eq in Hid. exfalso. apply Hfresh. left. exact Hid.
    + simpl. rewrite IH; [reflexivity|]. intros Hin. apply Hfresh. right. exact Hin.
Qed.

Ltac frame_cases :=
  repeat match goal with
         | |- context [match ?x with _ => _ end] => destruct x
         end;
  simpl; repeat split; reflexivity.

Section MoreOfTheSession.

Variable Number : string -> number.

(** X9.  [handleAddProduct] does nothing while the name or the price of the
    form is empty; otherwise it puts one product at the head of the catalog,
    with the first [Date.now()] reading as id, the converted price, the image
    of the form when one is given, and resets the form.  Deleting that id
    afterwards gives back the catalog, provided the id was not in use. *)
Theorem handleAddProduct_spec (now1 now2 : Z) (s : State) :
  let s' := handleAddProduct Number now1 now2 s in
  (np_name (newProduct s) = "" \/ np_price (newProduct s) = "" -> s' = s) /\
  (np_name (newProduct s) <> "" -> np_price (newProduct s) <> "" ->
   exists product,
     products s' = product :: products s /\
     p_id product = now1 /\
     p_name product = np_name (newProduct s) /\
     p_price product = Number (np_price (newProduct s)) /\
     p_category product = np_category (newProduct s) /\
     (np_image (newProduct s) <> "" -> p_image product = np_image (newProduct s)) /\
     newProduct s' = mkNewProductForm "" "" "Electronics" "") /\
  (~ In now1 (map p_id (products s)) ->
   products (deleteProduct now1 s') = products s).
Proof.
  intros s'. subst s'. unfold handleAddProduct.
  destruct (falsy (np_name (newProduct s))) eqn:Hname;
    [|destruct (falsy (np_price (newProduct s))) eqn:Hprice]; simpl.
  - apply falsy_empty in Hname.
    split; [reflexivity | split; [intros H; contradiction|]].
    intros Hfresh. apply filter_fresh_id. exact Hfresh.
  - apply falsy_empty in Hprice.
    split; [reflexivity | split; [intros _ H; contradiction|]].
    intros Hfresh. apply filter_fresh_id. exact Hfresh.
  - split; [|split].
    + intros [H | H]; apply falsy_empty in H; congruence.
    + intros _ _. eexists. split; [reflexivity|]. simpl.
      repeat (split; [reflexivity|]).
      split; [|reflexivity].
      intros Himage. destruct (falsy (np_image (newProduct s))) eqn:Hfalsy;
        [apply falsy_empty in Hfalsy; contradiction | reflexivity].
    + intros Hfresh. rewrite Z.eqb_refl. simpl.
      apply filter_fresh_id. exact Hfresh.
Qed.

Lemma catalog_step_frame (a : Action) (s : State) :
  isCatalogAction a = true ->
  cart (step Number a s) = cart s /\
  appliedCoupon (step Number a s) = appliedCoupon s /\
  orders (step Number a s) = orders s /\
  coupons (step Number a s) = coupons s /\
  wishlist (step Number a s) = wishlist s /\
  revenue (step Number a s) = revenue s.
Proof.
  destruct a; simpl; try discriminate; intros _;
    unfold handleAddProduct; frame_cases.
Qed.

(** X10.  No sequence of catalog edits (filling the product form, adding a
    product, deleting one, also one that is in the cart) changes the lines of
    the cart and their prices, the cart total, the ledger, the coupons, the
    wishlist or the revenue. *)
Theorem catalog_edits_frame (l : list Action) (s : State) :
  forallb isCatalogAction l = true ->
  cart (run Number l s) = cart s /\
  cartTotal (cart (run Number l s)) (appliedCoupon (run Number l s))
    = cartTotal (cart s) (appliedCoupon s) /\
  orders (run Number l s) = orders s /\
  coupons (run Number l s) = coupons s /\
  wishlist (run Number l s) = wishlist s /\
  revenue (run Number l s) = revenue s.
Proof.
  revert s. induction l as [|a l IH]; intros s Hl; simpl in Hl.
  - repeat split; reflexivity.
  - apply andb_true_iff in Hl. destruct Hl as [Ha Hl].
    change (run Number (a :: l) s) with (run Number l (step Number a s)).
    destruct (IH (step Number a s) Hl) as (H1 & H2 & H3 & H4 & H5 & H6).
    destruct (catalog_step_frame a s Ha) as (G1 & G2 & G3 & G4 & G5 & G6).
    rewrite H2, H1, H3, H4, H5, H6, G1, G2, G3, G4, G5, G6.
    repeat split; reflexivity.
Qed.

Lemma registry_step_frame (a : Action) (s : State) :
  isRegistryAction a = true ->
  cart (step Number a s) = cart s /\
  appliedCoupon (step Number a s) = appliedCoupon s /\
  orders (step Number a s) = orders s.
Proof.
  destruct a; simpl; try discriminate; intros _;
    unfold handleAddCoupon; frame_cases.
Qed.

(** X11.  The applied coupon is a copy: no sequence of registry edits
    (registering, deactivating or deleting coupons, the applied one included)
    changes the applied coupon, the cart or the cart total. *)
Theorem registry_edits_keep_applied (l : list Action) (s : State) :
  forallb isRegistryAction l = true ->
  appliedCoupon (run Number l s) = appliedCoupon s /\
  cart (run Number l s) = cart s /\
  cartTotal (cart (run Number l s)) (appliedCoupon (run Number l s))
    = cartTotal (cart s) (appliedCoupon s).
Proof.
  revert s. induction l as [|a l IH]; intros s Hl; simpl in Hl.
  - repeat split; reflexivity.
  - apply andb_true_iff in Hl. destruct Hl as [Ha Hl].
    change (run Number (a :: l) s) with (run Number l (step Number a s)).
    destruct (IH (step Number a s) Hl) as (H1 & H2 & H3).
    destruct (registry_step_frame a s Ha) as (G1 & G2 & _).
    rewrite H1, H2, G1, G2. repeat split; reflexivity.
Qed.

(** ** More on coupons *)

Lemma find_all_false {A : Type} (f : A -> bool) (l : list A) :
  (forall x, In x l -> f x = false) -> find f l = None.
Proof.
  induction l as [|x rest IH]; simpl; intros Hall.
  - reflexivity.
  - rewrite (Hall x (or_introl eq_refl)). apply IH.
    intros y Hy. apply Hall. right. exact Hy.
Qed.

Lemma find_app_cases {A : Type} (f : A -> bool) (l1 l2 : list A) :
  find f (l1 ++ l2) = match find f l1 with
                      | Some x => Some x
                      | None => find f l2
                      end.
Proof.
  induction l1 as [|x rest IH]; simpl; [reflexivity|].
  destruct (f x); [reflexivity | exact IH].
Qed.

Lemma withActive_twice (c : Coupon) :
  withActive (withActive c (negb (isActive c)))
             (negb (isActive (withActive c (negb (isActive c))))) = c.
Proof.
  destruct c as [k d b]. unfold withActive. simpl. rewrite negb_involutive. reflexivity.
Qed.

(** X12.  [toggleCouponStatus] keeps the codes and the discounts of the
    registry and the coupons of other codes; toggling the same code twice
    gives back the state. *)
Theorem toggleCouponStatus_involutive (code0 : string) (s : State) :
  toggleCouponStatus code0 (toggleCouponStatus code0 s) = s /\
  map code (coupons (toggleCouponStatus code0 s)) = map code (coupons s) /\
  map discount (coupons (toggleCouponStatus code0 s)) = map discount (coupons s) /\
  filter (fun c => negb (String.eqb (code c) code0)) (coupons (toggleCouponStatus code0 s))
  = filter (fun c => negb (String.eqb (code c) code0)) (coupons s).
Proof.
  unfold toggleCouponStatus. simpl. split; [|split; [|split]].
  - rewrite map_map.
    assert (Hsame : map (fun c =>
                      if String.eqb
                           (code (if String.eqb (code c) code0
                                  then withActive c (negb (isActive c)) else c)) code0
                      then withActive
                             (if String.eqb (code c) code0
                              then withActive c (negb (isActive c)) else c)
                             (negb (isActive
                                      (if String.eqb (code c) code0
                                       then withActive c (negb (isActive c)) else c)))
                      else (if String.eqb (code c) code0
                            then withActive c (negb (isActive c)) else c))
                      (coupons s) = coupons s).
    { rewrite <- (map_id (coupons s)) at 2. apply map_ext. intros c.
      destruct (String.eqb (code c) code0) eqn:Hc; simpl; rewrite Hc;
        [apply withActive_twice | reflexivity]. }
    rewrite Hsame. destruct s. reflexivity.
  - rewrite map_map. apply map_ext. intros c.
    destruct (String.eqb (code c) code0); reflexivity.
  - rewrite map_map. apply map_ext. intros c.
    destruct (String.eqb (code c) code0); reflexivity.
  - induction (coupons s) as [|c rest IH]; simpl; [reflexivity|].
    destruct (String.eqb (code c) code0) eqn:Hc; simpl; rewrite Hc; simpl;
      rewrite IH; reflexivity.
Qed.

Lemma apply_without_match (s : State) :
  (forall c, In c (coupons s) ->
     String.eqb (toUpperCase (code c)) (toUpperCase (couponInput s)) && isActive c = false) ->
  handleApplyCoupon s = setCouponError "Invalid or inactive coupon code" s.
Proof.
  intros Hnone. unfold handleApplyCoupon.
  rewrite (find_all_false _ _ Hnone). reflexivity.
Qed.

(** X13.  In a registry whose codes are in upper case, a code that has just
    been deleted is rejected however it is typed, and so is a code whose
    coupons were all active and have just been toggled; the applied coupon
    stays as it was. *)
Theorem removed_code_rejected (input : string) (s : State) :
  canonicalCodes (coupons s) ->
  (couponError
     (handleApplyCoupon (setCouponInput input (deleteCoupon (toUpperCase input) s)))
   = "Invalid or inactive coupon code" /\
   appliedCoupon
     (handleApplyCoupon (setCouponInput input (deleteCoupon (toUpperCase input) s)))
   = appliedCoupon s) /\
  ((forall c, In c (coupons s) -> code c = toUpperCase input -> isActive c = true) ->
   couponError
     (handleApplyCoupon (setCouponInput input (toggleCouponStatus (toUpperCase input) s)))
   = "Invalid or inactive coupon code" /\
   appliedCoupon
     (handleApplyCoupon (setCouponInput input (toggleCouponStatus (toUpperCase input) s)))
   = appliedCoupon s).
Proof.
  intros Hcanon. unfold canonicalCodes in Hcanon. rewrite Forall_forall in Hcanon.
  split.
  - rewrite apply_without_match; [split; reflexivity|].
    simpl. intros c Hin. apply filter_In in Hin. destruct Hin as [Hin Hkeep].
    rewrite (Hcanon c Hin).
    apply negb_true_iff in Hkeep. rewrite Hkeep. reflexivity.
  - intros Hactive. rewrite apply_without_match; [split; reflexivity|].
    simpl. intros c Hin. apply in_map_iff in Hin. destruct Hin as [c0 [Hc Hin]].
    destruct (String.eqb (code c0) (toUpperCase input)) eqn:Hhit; subst c; simpl.
    + apply String.eqb_eq in Hhit. rewrite (Hactive c0 Hin Hhit).
      apply andb_false_r.
    + rewrite (Hcanon c0 Hin), Hhit. reflexivity.
Qed.

(** X14.  Applying a coupon depends on the typed code up to case only: two
    inputs with the same upper-casing give the same applied coupon and the
    same error message. *)
Theorem handleApplyCoupon_case_insensitive (input1 input2 : string) (s : State) :
  toUpperCase input1 = toUpperCase input2 ->
  appliedCoupon (handleApplyCoupon (setCouponInput input1 s))
  = appliedCoupon (handleApplyCoupon (setCouponInput input2 s)) /\
  couponError (handleApplyCoupon (setCouponInput input1 s))
  = couponError (handleApplyCoupon (setCouponInput input2 s)).
Proof.
  intros Hsame. unfold handleApplyCoupon. simpl. rewrite Hsame.
  destruct (find _ (coupons s)); split; reflexivity.
Qed.

(** X15.  A code that has just been registered can be applied, however it
    is typed: the applied coupon is active and has that code.  When the
    registry already held an active coupon of that code, the older one is
    applied, with its own discount; otherwise the new one is. *)
Theorem register_then_apply (input : string) (s : State) :
  nc_code (newCoupon s) <> "" ->
  nc_discount (newCoupon s) <> "" ->
  toUpperCase input = toUpperCase (nc_code (newCoupon s)) ->
  let registered :=
    mkCoupon (toUpperCase (nc_code (newCoupon s)))
             (Number (nc_discount (newCoupon s))) true in
  let s' := handleApplyCoupon (setCouponInput input (handleAddCoupon Number s)) in
  couponError s' = "" /\
  exists c,
    appliedCoupon s' = Some c /\
    toUpperCase (code c) = toUpperCase input /\
    isActive c = true /\
    ((exists old, validFor input (coupons s) old) -> In c (coupons s)) /\
    (~ (exists old, validFor input (coupons s) old) -> c = registered).
Proof.
  intros Hcode Hdiscount Hinput registered s'. subst s'.
  unfold handleAddCoupon.
  destruct (falsy (nc_code (newCoupon s))) eqn:Hc;
    [apply falsy_empty in Hc; contradiction|].
  destruct (falsy (nc_discount (newCoupon s))) eqn:Hd;
    [apply falsy_empty in Hd; contradiction|].
  unfold handleApplyCoupon. simpl. rewrite find_app_cases.
  fold registered.
  destruct (find _ (coupons s)) as [old|] eqn:Hfind.
  - simpl. split; [reflexivity|]. exists old.
    apply find_some in Hfind. destruct Hfind as [Hin Hmatch].
    apply andb_true_iff in Hmatch. destruct Hmatch as [Hsame Hactive].
    apply String.eqb_eq in Hsame.
    split; [reflexivity | split; [exact Hsame | split; [exact Hactive|]]].
    split; [intros _; exact Hin|].
    intros Hnone. exfalso. apply Hnone. exists old. split; [exact Hin | tauto].
  - simpl. rewrite toUpperCase_idempotent, Hinput, String.eqb_refl. simpl.
    split; [reflexivity|]. exists registered.
    split; [reflexivity|].
    split; [simpl; apply toUpperCase_idempotent|].
    split; [reflexivity|].
    split; [|intros _; reflexivity].
    intros [old [Hin [Hsame Hactive]]].
    pose proof (find_none _ _ Hfind old Hin) as Hmiss. simpl in Hmiss.
    rewrite Hsame, String.eqb_refl, Hactive in Hmiss. discriminate Hmiss.
Qed.

(** ** More on checkout and the ledger *)

(** X16.  [checkout] empties the cart and keeps the applied coupon and the
    registry; a second [checkout] right after the first (a double click) does
    nothing: from a non-empty cart the two leave one new order in the ledger,
    the one the first made, and from an empty cart none. *)
Theorem checkout_twice (orderId1 date1 orderId2 date2 : string) (s : State) :
  checkout orderId2 date2 (checkout orderId1 date1 s) = checkout orderId1 date1 s /\
  (cart s <> [] ->
   orders (checkout orderId2 date2 (checkout orderId1 date1 s))
   = mkOrder orderId1 date1 (cart s) (cartTotal (cart s) (appliedCoupon s)) Pending
       :: orders s) /\
  (cart s = [] ->
   orders (checkout orderId2 date2 (checkout orderId1 date1 s)) = orders s) /\
  cart (checkout orderId1 date1 s) = [] /\
  appliedCoupon (checkout orderId1 date1 s) = appliedCoupon s /\
  coupons (checkout orderId1 date1 s) = coupons s.
Proof.
  assert (Hempty : cart (checkout orderId1 date1 s) = []).
  { unfold checkout. destruct (cart s) eqn:Hcart; [exact Hcart | reflexivity]. }
  assert (Htwice : checkout orderId2 date2 (checkout orderId1 date1 s)
                   = checkout orderId1 date1 s)
    by (apply checkout_nil; exact Hempty).
  split; [exact Htwice|].
  split; [intros Hcart; rewrite Htwice, (checkout_nonempty _ _ _ Hcart); reflexivity|].
  split; [intros Hcart; rewrite Htwice, (checkout_nil _ _ _ Hcart); reflexivity|].
  split; [exact Hempty|].
  unfold checkout. destruct (cart s); split; reflexivity.
Qed.

Lemma map_frozen_withStatus (hit : Order -> bool) (st : Status) (ledger : list Order) :
  map frozenPart (map (fun order => if hit order then withStatus order st else order) ledger)
  = map frozenPart ledger.
Proof.
  rewrite map_map. apply map_ext.
  intros order. destruct (hit order); reflexivity.
Qed.

Lemma step_frozen (a : Action) (s : State) :
  exists newer,
    map frozenPart (orders (step Number a s)) = newer ++ map frozenPart (orders s) /\
    (List.length newer <= 1)%nat.
Proof.
  destruct a; simpl;
    try (exists []; split; [reflexivity | simpl; lia]).
  - unfold checkout. destruct (cart s) as [|item rest].
    + exists []. split; [reflexivity | simpl; lia].
    + eexists [_]. split; [reflexivity | simpl; lia].
  - exists []. split; [|simpl; lia]. unfold customerReturn.
    destruct (nth_error (orders s) i) as [order|]; [|reflexivity].
    destruct (o_status order); try reflexivity.
    apply map_frozen_withStatus.
  - exists []. split; [|simpl; lia]. unfold adminSelectStatus.
    destruct (nth_error (orders s) i) as [order|]; [|reflexivity].
    apply map_frozen_withStatus.
  - exists []. split; [|simpl; lia].
    unfold handleAddProduct. destruct (falsy _ || falsy _); reflexivity.
  - exists []. split; [|simpl; lia].
    unfold handleApplyCoupon. destruct (find _ (coupons s)); reflexivity.
  - exists []. split; [|simpl; lia].
    unfold handleAddCoupon. destruct (falsy _ || falsy _); reflexivity.
Qed.

(** X17.  The ledger is append-only at its head: after any sequence of
    events the orders that were in the ledger are still there, in the same
    order and behind the newer ones, with the same id, date, lines and total;
    only their status may differ.  There are at most as many new orders as
    events. *)
Theorem ledger_frozen (l : list Action) (s : State) :
  exists newer,
    map frozenPart (orders (run Number l s)) = newer ++ map frozenPart (orders s) /\
    (List.length newer <= List.length l)%nat.
Proof.
  revert s. induction l as [|a l IH]; intros s.
  - exists []. split; [reflexivity | simpl; lia].
  - change (run Number (a :: l) s) with (run Number l (step Number a s)).
    destruct (IH (step Number a s)) as [newer [Hnewer Hlen]].
    destruct (step_frozen a s) as [front [Hfront Hone]].
    exists (newer ++ front). rewrite Hnewer, Hfront, app_assoc.
    split; [reflexivity|]. rewrite length_app. simpl. lia.
Qed.




(** X19.  The customer's Return button on the [i]-th order: when the order
    ids are pairwise distinct and that order is Delivered, it becomes
    Returned and every other order is left as it is; in any case a second
    click changes nothing. *)
Theorem customerReturn_spec (i : nat) (s : State) :
  (forall order,
     NoDup (map o_id (orders s)) ->
     nth_error (orders s) i = Some order ->
     o_status order = Delivered ->
     nth_error (orders (customerReturn i s)) i = Some (withStatus order Returned) /\
     forall j, j <> i ->
       nth_error (orders (customerReturn i s)) j = nth_error (orders s) j) /\
  customerReturn i (customerReturn i s) = customerReturn i s.
Proof.
  split.
  - intros order Hnodup Hnth Hdelivered. unfold customerReturn.
    rewrite Hnth, Hdelivered. unfold updateOrderStatus. simpl. split.
    + rewrite nth_error_map, Hnth. simpl. rewrite String.eqb_refl. reflexivity.
    + intros j Hj. rewrite nth_error_map.
      destruct (nth_error (orders s) j) as [other|] eqn:Hother; [|reflexivity].
      simpl. destruct (String.eqb (o_id other) (o_id order)) eqn:Hid; [|reflexivity].
      exfalso. apply String.eqb_eq in Hid. apply Hj.
      apply (proj1 (NoDup_nth_error (map o_id (orders s))) Hnodup).
      * rewrite length_map. apply nth_error_Some. congruence.
      * rewrite !nth_error_map, Hnth, Hother. simpl. congruence.
  - destruct (nth_error (orders s) i) as [order|] eqn:Hnth.
    + destruct (o_status order) eqn:Hstatus.
      1, 2, 4:
        assert (Hinner : customerReturn i s = s)
          by (unfold customerReturn; rewrite Hnth, Hstatus; reflexivity);
        rewrite Hinner; exact Hinner.
      assert (Hinner : customerReturn i s = updateOrderStatus (o_id order) Returned s)
        by (unfold customerReturn; rewrite Hnth, Hstatus; reflexivity).
      rewrite Hinner. unfold customerReturn, updateOrderStatus. simpl.
      rewrite nth_error_map, Hnth. simpl. rewrite String.eqb_refl. reflexivity.
    + assert (Hinner : customerReturn i s = s)
        by (unfold customerReturn; rewrite Hnth; reflexivity).
      rewrite Hinner. exact Hinner.
Qed.

Lemma customerReturn_spec_witness :
  nth_error (orders (customerReturn 0 deliveredOrderSession)) 0
  = Some (mkOrder "ORD-A1B2C3D4E" "1/1/2025, 10:00:00 AM"
            [withProduct mug 1] 899 Returned).
Proof.
  pose proof (customerReturn_spec 0 deliveredOrderSession) as [H _].
  apply (H (mkOrder "ORD-A1B2C3D4E" "1/1/2025, 10:00:00 AM"
              [withProduct mug 1] 899 Delivered)).
  - vm_compute. constructor; [intros [] | constructor].
  - reflexivity.
  - reflexivity.
Defined.

(** ** What every state of a session satisfies *)

Lemma addToCart_wf (product : Product) (cart : list CartItem) :
  cartWellFormed cart -> cartWellFormed (CartUpdate.addToCart product cart).
Proof.
  intros [Hnodup Hq]. unfold CartUpdate.addToCart.
  destruct (find _ cart) eqn:Hfind; split.
  - rewrite (map_ids _ (fun item => withQuantity item (quantity item + 1)));
      [exact Hnodup | reflexivity].
  - rewrite Forall_forall in *. intros item Hin. apply in_map_iff in Hin.
    destruct Hin as [item0 [Hitem Hin0]]. specialize (Hq item0 Hin0).
    destruct (id item0 =? p_id product)%Z; subst item; simpl; lia.
  - apply find_existsb in Hfind. rewrite map_app. simpl.
    apply NoDup_app; [exact Hnodup | constructor; [intros [] | constructor] |].
    intros x Hx [<- | []]. exact (existsb_id_In _ _ Hfind Hx).
  - apply Forall_app. split; [exact Hq|].
    constructor; [simpl; lia | constructor].
Qed.

Lemma removeFromCart_wf (productId : Z) (cart : list CartItem) :
  cartWellFormed cart -> cartWellFormed (CartUpdate.removeFromCart productId cart).
Proof.
  intros [Hnodup Hq]. unfold CartUpdate.removeFromCart. split.
  - apply NoDup_map_filter. exact Hnodup.
  - rewrite Forall_forall in *. intros item Hin. apply filter_In in Hin.
    apply Hq. tauto.
Qed.

Lemma updateQuantity_wf (productId delta : Z) (cart : list CartItem) :
  cartWellFormed cart -> cartWellFormed (CartUpdate.updateQuantity productId delta cart).
Proof.
  intros [Hnodup Hq]. unfold CartUpdate.updateQuantity. split.
  - rewrite (map_ids _ (fun item => withQuantity item (Z.max 1 (quantity item + delta))));
      [exact Hnodup | reflexivity].
  - rewrite Forall_forall in *. intros item Hin. apply in_map_iff in Hin.
    destruct Hin as [item0 [Hitem Hin0]]. specialize (Hq item0 Hin0).
    destruct (id item0 =? productId)%Z; subst item; simpl; lia.
Qed.

Lemma orderWellFormed_withStatus (hit : Order -> bool) (st : Status) (ledger : list Order) :
  Forall orderWellFormed ledger ->
  Forall orderWellFormed
    (map (fun order => if hit order then withStatus order st else order) ledger).
Proof.
  intros Hledger. rewrite Forall_forall in *. intros order Hin.
  apply in_map_iff in Hin. destruct Hin as [order0 [Horder Hin0]].
  specialize (Hledger order0 Hin0).
  destruct (hit order0); subst order; exact Hledger.
Qed.

Lemma sessionInvariant_step (a : Action) (s : State) :
  sessionInvariant s -> sessionInvariant (step Number a s).
Proof.
  intros (Hcart & Hwish & Hcodes & Happlied & Hledger).
  assert (Hcodes' : canonicalCodes (coupons (step Number a s)))
    by (apply canonicalCodes_step; exact Hcodes).
  unfold sessionInvariant. split; [|split; [|split; [exact Hcodes'|]]].
  - destruct a; simpl; try exact Hcart.
    + apply addToCart_wf. exact Hcart.
    + apply removeFromCart_wf. exact Hcart.
    + apply updateQuantity_wf. exact Hcart.
    + unfold checkout. destruct (cart s) eqn:Hc; [rewrite Hc|]; simpl.
      * split; constructor.
      * split; constructor.
    + unfold customerReturn. destruct (nth_error (orders s) i) as [order|]; [|exact Hcart].
      destruct (o_status order); exact Hcart.
    + unfold adminSelectStatus. destruct (nth_error (orders s) i); exact Hcart.
    + unfold handleAddProduct. destruct (falsy _ || falsy _); exact Hcart.
    + unfold handleApplyCoupon. destruct (find _ (coupons s)); exact Hcart.
    + unfold handleAddCoupon. destruct (falsy _ || falsy _); exact Hcart.
  - destruct a; simpl; try exact Hwish.
    + unfold checkout. destruct (cart s); exact Hwish.
    + unfold customerReturn. destruct (nth_error (orders s) i) as [order|]; [|exact Hwish].
      destruct (o_status order); exact Hwish.
    + unfold adminSelectStatus. destruct (nth_error (orders s) i); exact Hwish.
    + unfold handleAddProduct. destruct (falsy _ || falsy _); exact Hwish.
    + unfold handleApplyCoupon. destruct (find _ (coupons s)); exact Hwish.
    + unfold handleAddCoupon. destruct (falsy _ || falsy _); exact Hwish.
    + apply toggleWishlist_NoDup. exact Hwish.
  - split.
    + destruct a; simpl; try exact Happlied.
      * unfold checkout. destruct (cart s); exact Happlied.
      * unfold customerReturn. destruct (nth_error (orders s) i) as [order|]; [|exact Happlied].
        destruct (o_status order); exact Happlied.
      * unfold adminSelectStatus. destruct (nth_error (orders s) i); exact Happlied.
      * unfold handleAddProduct. destruct (falsy _ || falsy _); exact Happlied.
      * unfold handleApplyCoupon.
        destruct (find _ (coupons s)) as [coupon|] eqn:Hfind; [|exact Happlied].
        apply find_some in Hfind. destruct Hfind as [Hin Hmatch].
        apply andb_true_iff in Hmatch. simpl. split; [tauto|].
        unfold canonicalCodes in Hcodes. rewrite Forall_forall in Hcodes.
        apply Hcodes. exact Hin.
      * exact I.
      * unfold handleAddCoupon. destruct (falsy _ || falsy _); exact Happlied.
    + destruct a; simpl; try exact Hledger.
      * unfold checkout. destruct (cart s) as [|item rest] eqn:Hc; [exact Hledger|].
        simpl. constructor; [|exact Hledger].
        split; [simpl; discriminate|].
        split; [exact Hcart|].
        exists (appliedCoupon s). split; [exact Happlied | reflexivity].
      * unfold customerReturn. destruct (nth_error (orders s) i) as [order|]; [|exact Hledger].
        destruct (o_status order); try exact Hledger.
        apply orderWellFormed_withStatus. exact Hledger.
      * unfold adminSelectStatus. destruct (nth_error (orders s) i); [|exact Hledger].
        apply orderWellFormed_withStatus. exact Hledger.
      * unfold handleAddProduct. destruct (falsy _ || falsy _); exact Hledger.
      * unfold handleApplyCoupon. destruct (find _ (coupons s)); exact Hledger.
      * unfold handleAddCoupon. destruct (falsy _ || falsy _); exact Hledger.
Qed.

Lemma sessionInvariant_run (l : list Action) (s : State) :
  sessionInvariant s -> sessionInvariant (run Number l s).
Proof.
  revert s. induction l as [|a l IH]; intros s Hs.
  - exact Hs.
  - apply (IH (step Number a s)). apply sessionInvariant_step. exact Hs.
Qed.

Lemma sessionInvariant_initial : sessionInvariant initialState.
Proof.
  split; [split; constructor|].
  split; [constructor|].
  split; [constructor; [reflexivity | constructor]|].
  split; [exact I | constructor].
Qed.

(** X20.  In every state reached from the initial one the lines of the cart
    have pairwise distinct ids and quantities of at least 1, whatever deltas
    [updateQuantity] was given. *)
Theorem cart_always_well_formed (l : list Action) :
  NoDup (map id (cart (run Number l initialState))) /\
  Forall (fun item => (1 <= quantity item)%Z) (cart (run Number l initialState)).
Proof.
  exact (proj1 (sessionInvariant_run l initialState sessionInvariant_initial)).
Qed.

(** X21.  In every state reached from the initial one the applied coupon,
    when there is one, is marked active and carries an upper-case code, also
    after its registry entry was deactivated or deleted; and the wishlist has
    no duplicates. *)
Theorem applied_coupon_always_active (l : list Action) :
  (forall c, appliedCoupon (run Number l initialState) = Some c ->
     isActive c = true /\ toUpperCase (code c) = code c) /\
  NoDup (wishlist (run Number l initialState)).
Proof.
  destruct (sessionInvariant_run l initialState sessionInvariant_initial)
    as (_ & Hwish & _ & Happlied & _).
  split; [|exact Hwish].
  intros c Hc. rewrite Hc in Happlied. exact Happlied.
Qed.

Lemma step_order_origin (a : Action) (s : State) (order : Order) :
  In order (orders (step Number a s)) ->
  (exists orderId date,
     a = Checkout orderId date /\ cart s <> [] /\
     order = mkOrder orderId date (cart s) (cartTotal (cart s) (appliedCoupon s)) Pending) \/
  (exists older, In older (orders s) /\ frozenPart order = frozenPart older).
Proof.
  intros Hin.
  assert (Hold : In order (orders s) ->
                 exists older, In older (orders s) /\ frozenPart order = frozenPart older)
    by (intros H; exists order; split; [exact H | reflexivity]).
  assert (Hmapped : forall (hit : Order -> bool) (st : Status),
            In order (map (fun o => if hit o then withStatus o st else o) (orders s)) ->
            exists older, In older (orders s) /\ frozenPart order = frozenPart older).
  { intros hit st H. apply in_map_iff in H. destruct H as [older [Heq Holder]].
    exists older. split; [exact Holder|].
    subst order. destruct (hit older); reflexivity. }
  destruct a; simpl in Hin; try (right; exact (Hold Hin)).
  - unfold checkout in Hin. destruct (cart s) as [|item rest] eqn:Hcart.
    + right. exact (Hold Hin).
    + simpl in Hin. destruct Hin as [<- | Hin]; [|right; exact (Hold Hin)].
      left. exists orderId, date.
      split; [reflexivity | split; [discriminate | reflexivity]].
  - right. unfold customerReturn in Hin.
    destruct (nth_error (orders s) i) as [o|]; [|exact (Hold Hin)].
    destruct (o_status o); try exact (Hold Hin).
    exact (Hmapped _ _ Hin).
  - right. unfold adminSelectStatus in Hin.
    destruct (nth_error (orders s) i) as [o|]; [|exact (Hold Hin)].
    exact (Hmapped _ _ Hin).
  - right. unfold handleAddProduct in Hin.
    destruct (falsy _ || falsy _); exact (Hold Hin).
  - right. unfold handleApplyCoupon in Hin.
    destruct (find _ (coupons s)); exact (Hold Hin).
  - right. unfold handleAddCoupon in Hin.
    destruct (falsy _ || falsy _); exact (Hold Hin).
Qed.

(** X22.  Every order in the ledger of a state reached from the initial one
    was made by a [Checkout] event of the session: its id and date are those
    of the event, its lines are the cart of that moment, which was not empty
    and had pairwise distinct ids and quantities of at least 1, and its total
    is the [cartTotal] of that cart under the coupon applied at that moment,
    a coupon marked active if there was one. *)
Theorem orders_always_well_formed (l : list Action) (order : Order) :
  In order (orders (run Number l initialState)) ->
  exists l1 l2 orderId date,
    l = l1 ++ Checkout orderId date :: l2 /\
    frozenPart order
    = (orderId, date, cart (run Number l1 initialState),
       cartTotal (cart (run Number l1 initialState))
                 (appliedCoupon (run Number l1 initialState))) /\
    cart (run Number l1 initialState) <> [] /\
    NoDup (map id (o_items order)) /\
    Forall (fun item => (1 <= quantity item)%Z) (o_items order) /\
    (forall c, appliedCoupon (run Number l1 initialState) = Some c -> isActive c = true).
Proof.
  revert order. induction l as [|a l IH] using rev_ind; intros order Hin.
  - contradiction.
  - rewrite run_app in Hin. simpl in Hin.
    change (fold_left (fun st a0 => step Number a0 st) [a] (run Number l initialState))
      with (step Number a (run Number l initialState)) in Hin.
    destruct (step_order_origin _ _ _ Hin)
      as [[orderId [date [-> [Hcart ->]]]] | [older [Holder Hfrozen]]].
    + exists l, [], orderId, date.
      destruct (sessionInvariant_run l initialState sessionInvariant_initial)
        as ([Hnodup Hq] & _ & _ & Happlied & _).
      split; [reflexivity | split; [reflexivity | split; [exact Hcart|]]].
      split; [exact Hnodup | split; [exact Hq|]].
      intros c Hc. rewrite Hc in Happlied. exact (proj1 Happlied).
    + destruct (IH older Holder)
        as [l1 [l2 [orderId [date (Hl & Hpart & Hcart & Hnodup & Hq & Happlied)]]]].
      exists l1, (l2 ++ [a]), orderId, date.
      assert (Hitems : o_items order = o_items older)
        by (unfold frozenPart in Hfrozen; congruence).
      split; [rewrite Hl, <- app_assoc; reflexivity|].
      split; [rewrite Hfrozen; exact Hpart|].
      split; [exact Hcart|].
      rewrite Hitems. split; [exact Hnodup | split; [exact Hq | exact Happlied]].
Qed.

End MoreOfTheSession.

(** ** The admin login *)

Lemma authRun_snoc (l : list AuthAction) (a : AuthAction) (st : AdminAuth) :
  authRun (l ++ [a]) st = authStep a (authRun l st).
Proof.
  unfold authRun. rewrite fold_left_app. reflexivity.
Qed.

(** X23.  Starting logged out, the admin is authenticated after a sequence
    of login events only if the login form was at some point set to the id
    [Sanket123] with the password [Sanket@959595], compared exactly; a failed
    attempt keeps the form and the authentication flag and sets the error
    message; logging out always ends unauthenticated. *)
Theorem admin_login_needs_credentials (l : list AuthAction) :
  (isAdminAuthenticated (authRun l initialAuth) = true ->
   In (SetLoginForm (mkLoginForm "Sanket123" "Sanket@959595")) l) /\
  (forall st,
     loginForm st <> mkLoginForm "Sanket123" "Sanket@959595" ->
     handleAdminLogin st
     = mkAdminAuth (isAdminAuthenticated st) (loginForm st)
         "Invalid Admin ID or Password") /\
  (forall st, isAdminAuthenticated (handleAdminLogout st) = false).
Proof.
  split; [|split].
  - assert (Hinv : forall l0,
              (isAdminAuthenticated (authRun l0 initialAuth) = true ->
               In (SetLoginForm (mkLoginForm "Sanket123" "Sanket@959595")) l0) /\
              (loginForm (authRun l0 initialAuth) = mkLoginForm "Sanket123" "Sanket@959595" ->
               In (SetLoginForm (mkLoginForm "Sanket123" "Sanket@959595")) l0)).
    { induction l0 as [|a l0 [IHauth IHform]] using rev_ind.
      - split; intros H; discriminate H.
      - rewrite authRun_snoc. destruct a as [form | |]; simpl.
        + split.
          * intros H. apply in_or_app. left. exact (IHauth H).
          * intros ->. apply in_or_app. right. left. reflexivity.
        + unfold handleAdminLogin.
          destruct (String.eqb (lf_id (loginForm (authRun l0 initialAuth))) "Sanket123"
                    && String.eqb (lf_password (loginForm (authRun l0 initialAuth)))
                         "Sanket@959595") eqn:Hcred; simpl.
          * apply andb_true_iff in Hcred. destruct Hcred as [Hid Hpw].
            apply String.eqb_eq in Hid. apply String.eqb_eq in Hpw.
            assert (Hform : loginForm (authRun l0 initialAuth)
                            = mkLoginForm "Sanket123" "Sanket@959595")
              by (destruct (loginForm (authRun l0 initialAuth)); simpl in *; congruence).
            split; [intros _ | intros H; discriminate H].
            apply in_or_app. left. exact (IHform Hform).
          * split; intros H; apply in_or_app; left; [exact (IHauth H) | exact (IHform H)].
        + split; [intros H; discriminate H|].
          intros H. apply in_or_app. left. exact (IHform H). }
    exact (proj1 (Hinv l)).
  - intros st Hform. unfold handleAdminLogin.
    destruct (String.eqb (lf_id (loginForm st)) "Sanket123"
              && String.eqb (lf_password (loginForm st)) "Sanket@959595") eqn:Hcred;
      [|reflexivity].
    apply andb_true_iff in Hcred. destruct Hcred as [Hid Hpw].
    apply String.eqb_eq in Hid. apply String.eqb_eq in Hpw.
    exfalso. apply Hform. destruct (loginForm st); simpl in *; congruence.
  - intros st. reflexivity.
Qed.

(** ** More sessions of the examples *)

Lemma handleAddProduct_spec_witness :
  products
    (deleteProduct 1700000000000
       (handleAddProduct decimalNumber 1700000000000 1700000000001
          (setNewProduct (mkNewProductForm "Desk Lamp" "1500" "Home" "") initialState)))
  = INITIAL_PRODUCTS.
Proof.
  pose proof (handleAddProduct_spec decimalNumber 1700000000000 1700000000001
                (setNewProduct (mkNewProductForm "Desk Lamp" "1500" "Home" "") initialState))
    as H.
  cbv zeta in H. destruct H as (_ & _ & H).
  apply H. simpl. intros [H0 | [H0 | [H0 | [H0 | [H0 | []]]]]]; discriminate H0.
Defined.

Lemma catalog_edits_frame_witness :
  cart (run decimalNumber [DeleteProduct 1; DeleteProduct 2] welcomeSession)
  = cart welcomeSession.
Proof.
  apply (catalog_edits_frame decimalNumber [DeleteProduct 1; DeleteProduct 2] welcomeSession).
  reflexivity.
Defined.

Lemma registry_edits_keep_applied_witness :
  appliedCoupon
    (run decimalNumber [ToggleCouponStatus "WELCOME10"; DeleteCoupon "WELCOME10"]
       welcomeSession)
  = appliedCoupon welcomeSession.
Proof.
  apply (registry_edits_keep_applied decimalNumber
           [ToggleCouponStatus "WELCOME10"; DeleteCoupon "WELCOME10"] welcomeSession).
  reflexivity.
Defined.

Lemma removed_code_rejected_witness :
  couponError
    (handleApplyCoupon
       (setCouponInput "welcome10" (deleteCoupon (toUpperCase "welcome10") initialState)))
  = "Invalid or inactive coupon code".
Proof.
  assert (Hcanon : canonicalCodes (coupons initialState))
    by (constructor; [reflexivity | constructor]).
  destruct (removed_code_rejected "welcome10" initialState Hcanon) as [[H _] _].
  exact H.
Defined.

Lemma handleApplyCoupon_case_insensitive_witness :
  appliedCoupon (handleApplyCoupon (setCouponInput "Welcome10" initialState))
  = appliedCoupon (handleApplyCoupon (setCouponInput "wELCOME10" initialState)).
Proof.
  apply (handleApplyCoupon_case_insensitive "Welcome10" "wELCOME10" initialState).
  reflexivity.
Defined.

Lemma register_then_apply_witness :
  couponError
    (handleApplyCoupon
       (setCouponInput "Save"
          (handleAddCoupon decimalNumber
             (setNewCoupon (mkNewCouponForm "save" "20") initialState))))
  = "".
Proof.
  apply (register_then_apply decimalNumber "Save"
           (setNewCoupon (mkNewCouponForm "save" "20") initialState)).
  - discriminate.
  - discriminate.
  - reflexivity.
Defined.

Lemma applied_coupon_always_active_witness :
  isActive (mkCoupon "WELCOME10" 10 true) = true /\
  toUpperCase (code (mkCoupon "WELCOME10" 10 true)) = code (mkCoupon "WELCOME10" 10 true).
Proof.
  apply (applied_coupon_always_active decimalNumber
           [AddToCart headphones; AddToCart watch; AddToCart watch;
            SetCouponInput "welcome10"; HandleApplyCoupon;
            ToggleCouponStatus "WELCOME10"]).
  reflexivity.
Defined.

Lemma orders_always_well_formed_witness :
  exists l1 l2 orderId date,
    [AddToCart mug; Checkout "ORD-A1B2C3D4E" "1/1/2025, 10:00:00 AM"]
    = l1 ++ Checkout orderId date :: l2 /\
    (899 : number)
    = cartTotal (cart (run decimalNumber l1 initialState))
                (appliedCoupon (run decimalNumber l1 initialState)).
Proof.
  destruct (orders_always_well_formed decimalNumber
              [AddToCart mug; Checkout "ORD-A1B2C3D4E" "1/1/2025, 10:00:00 AM"]
              (mkOrder "ORD-A1B2C3D4E" "1/1/2025, 10:00:00 AM" [withProduct mug 1] 899 Pending))
    as [l1 [l2 [orderId [date (Hl & Hpart & _)]]]].
  - left. reflexivity.
  - exists l1, l2, orderId, date. split; [exact Hl|].
    unfold frozenPart in Hpart. simpl in Hpart. congruence.
Defined.

Lemma checkout_twice_witness :
  orders (checkout "ORD-F6G7H8I9J" "1/1/2025, 10:00:01 AM"
            (checkout "ORD-A1B2C3D4E" "1/1/2025, 10:00:00 AM" welcomeSession))
  = mkOrder "ORD-A1B2C3D4E" "1/1/2025, 10:00:00 AM" (cart welcomeSession)
      (cartTotal (cart welcomeSession) (appliedCoupon welcomeSession)) Pending
      :: orders welcomeSession.
Proof.
  destruct (checkout_twice "ORD-A1B2C3D4E" "1/1/2025, 10:00:00 AM"
              "ORD-F6G7H8I9J" "1/1/2025, 10:00:01 AM" welcomeSession)
    as (_ & H & _).
  apply H. intros Hcart. vm_compute in Hcart. discriminate Hcart.
Defined.

Lemma admin_login_needs_credentials_witness :
  In (SetLoginForm (mkLoginForm "Sanket123" "Sanket@959595"))
     [SetLoginForm (mkLoginForm "sanket123" "Sanket@959595"); HandleAdminLogin;
      SetLoginForm (mkLoginForm "Sanket123" "Sanket@959595"); HandleAdminLogin].
Proof.
  apply (admin_login_needs_credentials
           [SetLoginForm (mkLoginForm "sanket123" "Sanket@959595"); HandleAdminLogin;
            SetLoginForm (mkLoginForm "Sanket123" "Sanket@959595"); HandleAdminLogin]).
  reflexivity.
Defined.
